(** * ILPS28QSW register driver: a shallow embedding of ilps28qsw_reg.c

    The driver talks to the sensor through two function pointers of the
    context structure (read_reg and write_reg).  Every driver function is
    embedded as a computation in a small monad that threads the state of the
    bus and records the transport calls that were made, in order.

    Integers are modelled by [Z] with the conversions of the C types written
    out.  Register structures are single bytes whose members are bit-fields.
    Output parameters are returned next to the status.  Automatic buffers
    start with indeterminate contents, a parameter of the driver functions;
    [write_reg] is taken to leave the buffer it is given unchanged.

    The header ilps28qsw_reg.h (register addresses, bit-field layouts,
    enumerator values) is a parameter of the development: the class
    [ilps28qsw_reg_h] collects what the driver uses of it, and
    [device_header] gives the values of the device's register map. *)

From Stdlib Require Import ZArith List Lia Bool QArith.
Import ListNotations.
Local Open Scope Z_scope.

(** ** Integer types *)

Definition uint8_t (x : Z) : Z := x mod 256.
Definition uint16_t (x : Z) : Z := x mod 65536.
Definition uint32_t (x : Z) : Z := x mod 4294967296.
(** Conversions to the signed types wrap around (two's complement): a
    conversion that does not fit is implementation-defined, and this is what
    the supported compilers define.  A signed product that is not
    representable is another matter, see [c_build] below. *)
Definition int16_t (x : Z) : Z := (x + 32768) mod 65536 - 32768.
Definition int32_t (x : Z) : Z := (x + 2147483648) mod 4294967296 - 2147483648.

(** ** Bit-fields of a register byte *)

Record bitfield : Set := BitField { bf_lsb : Z; bf_width : Z }.

(** [s.f] *)
Definition bf_get (f : bitfield) (s : Z) : Z :=
  Z.land (Z.shiftr s (bf_lsb f)) (Z.ones (bf_width f)).

(** [s.f = v]: the value is truncated to the width of the member, the other
    bits of the byte are kept. *)
Definition bf_set (f : bitfield) (s v : Z) : Z :=
  Z.lor (Z.land s (Z.lnot (Z.shiftl (Z.ones (bf_width f)) (bf_lsb f))))
        (Z.shiftl (Z.land v (Z.ones (bf_width f))) (bf_lsb f)).

Definition bf_inside (f : bitfield) (i : Z) : bool :=
  (bf_lsb f <=? i) && (i <? bf_lsb f + bf_width f).

(** A member that lies within the byte. *)
Definition bf_wf (f : bitfield) : bool :=
  (0 <=? bf_lsb f) && (0 <? bf_width f) && (bf_lsb f + bf_width f <=? 8).

Definition bf_disjoint (f g : bitfield) : bool :=
  (bf_lsb f + bf_width f <=? bf_lsb g) || (bf_lsb g + bf_width g <=? bf_lsb f).

(** ** ilps28qsw_reg.h *)

Class ilps28qsw_reg_h : Set := {
  PROPERTY_DISABLE : Z;
  PROPERTY_ENABLE : Z;
  (* register addresses *)
  ILPS28QSW_INTERRUPT_CFG : Z;
  ILPS28QSW_CTRL_REG1 : Z;
  ILPS28QSW_CTRL_REG2 : Z;
  ILPS28QSW_CTRL_REG3 : Z;
  ILPS28QSW_FIFO_CTRL : Z;
  ILPS28QSW_INT_SOURCE : Z;
  ILPS28QSW_STATUS : Z;
  ILPS28QSW_PRESS_OUT_XL : Z;
  ILPS28QSW_FIFO_DATA_OUT_PRESS_XL : Z;
  (* ilps28qsw_interrupt_cfg_t *)
  interrupt_cfg_phe : bitfield;
  interrupt_cfg_ple : bitfield;
  interrupt_cfg_reset_az : bitfield;
  interrupt_cfg_autozero : bitfield;
  interrupt_cfg_reset_arp : bitfield;
  interrupt_cfg_autorefp : bitfield;
  (* ilps28qsw_ths_p_l_t, ilps28qsw_ths_p_h_t *)
  ths_p_l_ths : bitfield;
  ths_p_h_ths : bitfield;
  (* ilps28qsw_ctrl_reg1_t *)
  ctrl_reg1_avg : bitfield;
  ctrl_reg1_odr : bitfield;
  (* ilps28qsw_ctrl_reg2_t *)
  ctrl_reg2_oneshot : bitfield;
  ctrl_reg2_swreset : bitfield;
  ctrl_reg2_en_lpfp : bitfield;
  ctrl_reg2_lfpf_cfg : bitfield;
  ctrl_reg2_fs_mode : bitfield;
  (* ilps28qsw_ctrl_reg3_t *)
  ctrl_reg3_ah_qvar_p_auto_en : bitfield;
  ctrl_reg3_ah_qvar_en : bitfield;
  (* ilps28qsw_fifo_ctrl_t, ilps28qsw_fifo_wtm_t *)
  fifo_ctrl_f_mode : bitfield;
  fifo_ctrl_trig_modes : bitfield;
  fifo_ctrl_stop_on_wtm : bitfield;
  fifo_ctrl_ah_qvar_p_fifo_en : bitfield;
  fifo_wtm_wtm : bitfield;
  (* ilps28qsw_int_source_t, ilps28qsw_status_t *)
  int_source_boot_on : bitfield;
  status_p_da : bitfield;
  status_t_da : bitfield;
  status_p_or : bitfield;
  status_t_or : bitfield;
  (* width of the flags of ilps28qsw_stat_t *)
  stat_flag_bits : Z;
  (* enumerators of ilps28qsw_md_t *)
  ILPS28QSW_1260hPa : Z;
  ILPS28QSW_4060hPa : Z;
  ILPS28QSW_ONE_SHOT : Z;
  ILPS28QSW_1Hz : Z;
  ILPS28QSW_4Hz : Z;
  ILPS28QSW_10Hz : Z;
  ILPS28QSW_25Hz : Z;
  ILPS28QSW_50Hz : Z;
  ILPS28QSW_75Hz : Z;
  ILPS28QSW_100Hz : Z;
  ILPS28QSW_200Hz : Z;
  ILPS28QSW_4_AVG : Z;
  ILPS28QSW_8_AVG : Z;
  ILPS28QSW_16_AVG : Z;
  ILPS28QSW_32_AVG : Z;
  ILPS28QSW_64_AVG : Z;
  ILPS28QSW_128_AVG : Z;
  ILPS28QSW_256_AVG : Z;
  ILPS28QSW_512_AVG : Z;
  ILPS28QSW_LPF_DISABLE : Z;
  ILPS28QSW_LPF_ODR_DIV_4 : Z;
  ILPS28QSW_LPF_ODR_DIV_9 : Z;
  (* enumerators of ilps28qsw_fifo_md_t *)
  ILPS28QSW_BYPASS : Z;
  ILPS28QSW_FIFO : Z;
  ILPS28QSW_STREAM : Z;
  ILPS28QSW_STREAM_TO_FIFO : Z;
  ILPS28QSW_BYPASS_TO_STREAM : Z;
  ILPS28QSW_BYPASS_TO_FIFO : Z;
  (* enumerators of ilps28qsw_ref_md_t *)
  ILPS28QSW_OUT_AND_INTERRUPT : Z;
  ILPS28QSW_ONLY_INTERRUPT : Z;
  ILPS28QSW_RST_REFS : Z
}.

(** The register map of the device: the addresses, the position of each
    member within its register (least significant bit first) and the values
    of the enumerators, as the header of the device declares them.  The
    statements that do not depend on these values are proved for every
    header; the others name the conditions on the header that they need, or
    are stated for this one. *)
Definition device_header : ilps28qsw_reg_h := {|
  PROPERTY_DISABLE := 0;
  PROPERTY_ENABLE := 1;
  ILPS28QSW_INTERRUPT_CFG := 0x0B;
  ILPS28QSW_CTRL_REG1 := 0x10;
  ILPS28QSW_CTRL_REG2 := 0x11;
  ILPS28QSW_CTRL_REG3 := 0x12;
  ILPS28QSW_FIFO_CTRL := 0x14;
  ILPS28QSW_INT_SOURCE := 0x24;
  ILPS28QSW_STATUS := 0x27;
  ILPS28QSW_PRESS_OUT_XL := 0x28;
  ILPS28QSW_FIFO_DATA_OUT_PRESS_XL := 0x78;
  interrupt_cfg_phe := BitField 0 1;
  interrupt_cfg_ple := BitField 1 1;
  interrupt_cfg_reset_az := BitField 4 1;
  interrupt_cfg_autozero := BitField 5 1;
  interrupt_cfg_reset_arp := BitField 6 1;
  interrupt_cfg_autorefp := BitField 7 1;
  ths_p_l_ths := BitField 0 8;
  ths_p_h_ths := BitField 0 7;
  ctrl_reg1_avg := BitField 0 3;
  ctrl_reg1_odr := BitField 3 4;
  ctrl_reg2_oneshot := BitField 0 1;
  ctrl_reg2_swreset := BitField 2 1;
  ctrl_reg2_en_lpfp := BitField 4 1;
  ctrl_reg2_lfpf_cfg := BitField 5 1;
  ctrl_reg2_fs_mode := BitField 6 1;
  ctrl_reg3_ah_qvar_p_auto_en := BitField 5 1;
  ctrl_reg3_ah_qvar_en := BitField 7 1;
  fifo_ctrl_f_mode := BitField 0 2;
  fifo_ctrl_trig_modes := BitField 2 1;
  fifo_ctrl_stop_on_wtm := BitField 3 1;
  fifo_ctrl_ah_qvar_p_fifo_en := BitField 4 1;
  fifo_wtm_wtm := BitField 0 7;
  int_source_boot_on := BitField 7 1;
  status_p_da := BitField 0 1;
  status_t_da := BitField 1 1;
  status_p_or := BitField 4 1;
  status_t_or := BitField 5 1;
  stat_flag_bits := 1;
  ILPS28QSW_1260hPa := 0;
  ILPS28QSW_4060hPa := 1;
  ILPS28QSW_ONE_SHOT := 0;
  ILPS28QSW_1Hz := 1;
  ILPS28QSW_4Hz := 2;
  ILPS28QSW_10Hz := 3;
  ILPS28QSW_25Hz := 4;
  ILPS28QSW_50Hz := 5;
  ILPS28QSW_75Hz := 6;
  ILPS28QSW_100Hz := 7;
  ILPS28QSW_200Hz := 8;
  ILPS28QSW_4_AVG := 0;
  ILPS28QSW_8_AVG := 1;
  ILPS28QSW_16_AVG := 2;
  ILPS28QSW_32_AVG := 3;
  ILPS28QSW_64_AVG := 4;
  ILPS28QSW_128_AVG := 5;
  ILPS28QSW_256_AVG := 6;
  ILPS28QSW_512_AVG := 7;
  ILPS28QSW_LPF_DISABLE := 0;
  ILPS28QSW_LPF_ODR_DIV_4 := 1;
  ILPS28QSW_LPF_ODR_DIV_9 := 3;
  ILPS28QSW_BYPASS := 0;
  ILPS28QSW_FIFO := 1;
  ILPS28QSW_STREAM := 2;
  ILPS28QSW_STREAM_TO_FIFO := 7;
  ILPS28QSW_BYPASS_TO_STREAM := 6;
  ILPS28QSW_BYPASS_TO_FIFO := 5;
  ILPS28QSW_OUT_AND_INTERRUPT := 0;
  ILPS28QSW_ONLY_INTERRUPT := 1;
  ILPS28QSW_RST_REFS := 2
|}.

(** ** float_t

    The arithmetic of [float_t] is an interface: a conversion from integers,
    the literals the driver uses (all of them whole numbers) and division. *)

Class float_ops : Type := {
  float_t : Type;
  float_of_int : Z -> float_t;
  float_lit : Z -> float_t;
  float_div : float_t -> float_t -> float_t
}.

(** Exact arithmetic on the rationals. *)
Definition exact_float : float_ops := {|
  float_t := Q;
  float_of_int := inject_Z;
  float_lit := inject_Z;
  float_div := Qdiv
|}.

(** ** The transport and the monad of driver computations *)

(** One call of a function pointer of the context, with the bytes that were
    transferred and the status that came back. *)
Inductive bus_event : Set :=
| BusRead (reg : Z) (len : Z) (data : list Z) (status : Z)
| BusWrite (reg : Z) (len : Z) (data : list Z) (status : Z).


Definition event_status (e : bus_event) : Z :=
  match e with BusWrite _ _ _ s => s | BusRead _ _ _ s => s end.

(** [stmdev_ctx_t]: the two function pointers; the handle is the state [H]
    of the bus they act on.  [read_reg] receives the buffer as it is before
    the call and returns it as it is after the call. *)
Record stmdev_ctx_t (H : Type) : Type := {
  write_reg : H -> Z -> list Z -> Z -> Z * H;
  read_reg : H -> Z -> list Z -> Z -> Z * list Z * H
}.
Arguments write_reg {H}.
Arguments read_reg {H}.

Definition io (H A : Type) : Type := H -> A * H * list bus_event.

Definition io_ret {H A} (a : A) : io H A := fun h => (a, h, []).

Definition io_bind {H A B} (m : io H A) (k : A -> io H B) : io H B :=
  fun h => let '(a, h1, t1) := m h in
           let '(b, h2, t2) := k a h1 in
           (b, h2, t1 ++ t2).

Notation "x <- m ;; k" := (io_bind m (fun x => k))
  (at level 61, m at next level, right associativity).
Notation "' p <- m ;; k" := (io_bind m (fun x => match x with p => k end))
  (at level 61, p pattern, m at next level, right associativity).

Definition result {H A} (r : A * H * list bus_event) : A := fst (fst r).
Definition bus_after {H A} (r : A * H * list bus_event) : H := snd (fst r).
Definition calls {H A} (r : A * H * list bus_event) : list bus_event := snd r.

(** A buffer keeps its size and holds bytes, whatever the transport did. *)
Definition buffer_fit (old new : list Z) : list Z :=
  map uint8_t (firstn (length old) (new ++ skipn (length new) old)).

(** ** Signed overflow

    A product of two [int]s that is not representable is undefined in C.
    The data getters multiply the 24-bit output code by 256 in an [int32_t]
    member, which overflows when bit 23 of the code is set, and, for a QVAR
    sample, divide the member by 256 again.  The word left in the member is
    taken to be the two's-complement one.  The quotient is that of the
    member where the product was representable; where it was not, the
    source does not fix it (a build may divide the word it stored, or
    replace [(x * 256) / 256] by [x]): it is what the build yields. *)
Class c_build : Type := {
  overflowed_quot : Z -> Z -> Z
}.

Definition int_representable (x : Z) : bool :=
  (-2147483648 <=? x) && (x <? 2147483648).

(** [(x * y) / y], the division being made on the member that holds
    [x * y]. *)
Definition quot_of_product {bld : c_build} (x y : Z) : Z :=
  if int_representable (x * y) then Z.quot (x * y) y else overflowed_quot x y.

(** A build that divides the word found in the member. *)
Definition wrapping_build : c_build := {|
  overflowed_quot := fun x y => Z.quot (int32_t (x * y)) y
|}.

(** A build that simplifies the division of the product away. *)
Definition folding_build : c_build := {|
  overflowed_quot := fun x y => x
|}.

Section Driver.

Context {H : Type}.
Context {hdr : ilps28qsw_reg_h}.
Context {fl : float_ops}.
Context {bld : c_build}.

(** The indeterminate value of the n-th byte of automatic storage that has
    not been initialised. *)
Variable indeterminate : nat -> Z.

Definition auto_buffer (from len : nat) : list Z :=
  map (fun n => uint8_t (indeterminate n)) (seq from len).

(** *** Interfaces_Functions *)

Definition ilps28qsw_read_reg (ctx : option (stmdev_ctx_t H)) (reg : Z)
    (data : list Z) (len : Z) : io H (Z * list Z) :=
  fun h =>
    match ctx with
    | None => ((-1, data), h, [])
    | Some c =>
        let '(ret, data', h') := read_reg c h reg data len in
        let data' := buffer_fit data data' in
        ((int32_t ret, data'), h', [BusRead reg len data' (int32_t ret)])
    end.

Definition ilps28qsw_write_reg (ctx : option (stmdev_ctx_t H)) (reg : Z)
    (data : list Z) (len : Z) : io H Z :=
  fun h =>
    match ctx with
    | None => (-1, h, [])
    | Some c =>
        let '(ret, h') := write_reg c h reg data len in
        (int32_t ret, h', [BusWrite reg len data (int32_t ret)])
    end.

(** *** Private_functions *)

(** Both pointers are addresses of automatic objects in every call. *)
Definition bytecpy (target source : Z) : Z := source.

(** [switch (x) { case c: ...; default: ... }] *)
Fixpoint switch {A} (x : Z) (cases : list (Z * A)) (default : A) : A :=
  match cases with
  | [] => default
  | (c, a) :: rest => if x =? c then a else switch x rest default
  end.

(** *** Sensitivity *)

Definition ilps28qsw_from_fs1260_to_hPa (lsb : Z) : float_t :=
  float_div (float_of_int lsb) (float_lit 1048576).

Definition ilps28qsw_from_fs4060_to_hPa (lsb : Z) : float_t :=
  float_div (float_of_int lsb) (float_lit 524288).

Definition ilps28qsw_from_lsb_to_celsius (lsb : Z) : float_t :=
  float_div (float_of_int lsb) (float_lit 100).


(** *** Basic functions *)

Record ilps28qsw_stat_t : Type := {
  sw_reset : Z;
  boot : Z;
  drdy_pres : Z;
  drdy_temp : Z;
  ovr_pres : Z;
  ovr_temp : Z;
  end_meas : Z;
  ref_done : Z
}.

(** Assignment to a flag of [ilps28qsw_stat_t]. *)
Definition stat_flag (v : Z) : Z := Z.land v (Z.ones stat_flag_bits).

Definition ilps28qsw_status_get (ctx : option (stmdev_ctx_t H))
  : io H (Z * ilps28qsw_stat_t) :=
  let interrupt_cfg := auto_buffer 0 1 in
  let int_source := auto_buffer 1 1 in
  let ctrl_reg2 := auto_buffer 2 1 in
  let status := auto_buffer 3 1 in
  '(ret, ctrl_reg2) <- ilps28qsw_read_reg ctx ILPS28QSW_CTRL_REG2 ctrl_reg2 1 ;;
  '(ret, int_source) <-
     (if ret =? 0
      then ilps28qsw_read_reg ctx ILPS28QSW_INT_SOURCE int_source 1
      else io_ret (ret, int_source)) ;;
  '(ret, status) <-
     (if ret =? 0
      then ilps28qsw_read_reg ctx ILPS28QSW_STATUS status 1
      else io_ret (ret, status)) ;;
  '(ret, interrupt_cfg) <-
     (if ret =? 0
      then ilps28qsw_read_reg ctx ILPS28QSW_INTERRUPT_CFG interrupt_cfg 1
      else io_ret (ret, interrupt_cfg)) ;;
  let ctrl_reg2 := nth 0 ctrl_reg2 0 in
  let int_source := nth 0 int_source 0 in
  let status := nth 0 status 0 in
  let interrupt_cfg := nth 0 interrupt_cfg 0 in
  io_ret (ret, {|
    sw_reset := stat_flag (bf_get ctrl_reg2_swreset ctrl_reg2);
    boot := stat_flag (bf_get int_source_boot_on int_source);
    drdy_pres := stat_flag (bf_get status_p_da status);
    drdy_temp := stat_flag (bf_get status_t_da status);
    ovr_pres := stat_flag (bf_get status_p_or status);
    ovr_temp := stat_flag (bf_get status_t_or status);
    end_meas := stat_flag (Z.lnot (bf_get ctrl_reg2_oneshot ctrl_reg2));
    ref_done := stat_flag (Z.lnot (bf_get interrupt_cfg_autozero interrupt_cfg))
  |}).

Record ilps28qsw_md_t : Set := {
  fs : Z;
  odr : Z;
  avg : Z;
  lpf : Z;
  interleaved_mode : Z
}.

Definition ilps28qsw_mode_set (ctx : option (stmdev_ctx_t H))
    (val : ilps28qsw_md_t) : io H Z :=
  let fifo_ctrl := auto_buffer 3 1 in
  let odr_save := 0 in
  let ah_qvar_en_save := 0 in
  let reg := auto_buffer 0 3 in
  '(ret, reg) <- ilps28qsw_read_reg ctx ILPS28QSW_CTRL_REG1 reg 3 ;;
  if ret =? 0 then
    let ctrl_reg1 := bytecpy 0 (nth 0 reg 0) in
    let ctrl_reg2 := bytecpy 0 (nth 1 reg 0) in
    let ctrl_reg3 := bytecpy 0 (nth 2 reg 0) in
    (* handle interleaved mode setting *)
    '(ret, odr_save, ctrl_reg1) <-
       (if negb (bf_get ctrl_reg1_odr ctrl_reg1 =? 0) then
          (* power-down *)
          let odr_save := bf_get ctrl_reg1_odr ctrl_reg1 in
          let ctrl_reg1 := bf_set ctrl_reg1_odr ctrl_reg1 0 in
          r <- ilps28qsw_write_reg ctx ILPS28QSW_CTRL_REG1 [ctrl_reg1] 1 ;;
          io_ret (int32_t (ret + r), odr_save, ctrl_reg1)
        else io_ret (ret, odr_save, ctrl_reg1)) ;;
    '(ret, ah_qvar_en_save, ctrl_reg3) <-
       (if negb (bf_get ctrl_reg3_ah_qvar_en ctrl_reg3 =? 0) then
          (* disable QVAR *)
          let ah_qvar_en_save := bf_get ctrl_reg3_ah_qvar_en ctrl_reg3 in
          let ctrl_reg3 := bf_set ctrl_reg3_ah_qvar_en ctrl_reg3 0 in
          r <- ilps28qsw_write_reg ctx ILPS28QSW_CTRL_REG3 [ctrl_reg3] 1 ;;
          io_ret (int32_t (ret + r), ah_qvar_en_save, ctrl_reg3)
        else io_ret (ret, ah_qvar_en_save, ctrl_reg3)) ;;
    (* set interleaved mode (0 or 1) *)
    let ctrl_reg3 :=
      bf_set ctrl_reg3_ah_qvar_p_auto_en ctrl_reg3 (interleaved_mode val) in
    r <- ilps28qsw_write_reg ctx ILPS28QSW_CTRL_REG3 [ctrl_reg3] 1 ;;
    let ret := int32_t (ret + r) in
    (* set FIFO interleaved mode (0 or 1) *)
    '(r, fifo_ctrl) <- ilps28qsw_read_reg ctx ILPS28QSW_FIFO_CTRL fifo_ctrl 1 ;;
    let ret := int32_t (ret + r) in
    let fifo_ctrl :=
      bf_set fifo_ctrl_ah_qvar_p_fifo_en (nth 0 fifo_ctrl 0)
             (interleaved_mode val) in
    r <- ilps28qsw_write_reg ctx ILPS28QSW_FIFO_CTRL [fifo_ctrl] 1 ;;
    let ret := int32_t (ret + r) in
    (* restore ah_qvar_en back to previous setting *)
    let ctrl_reg3 :=
      if negb (ah_qvar_en_save =? 0)
      then bf_set ctrl_reg3_ah_qvar_en ctrl_reg3 ah_qvar_en_save
      else ctrl_reg3 in
    (* restore odr back to previous setting *)
    let ctrl_reg1 :=
      if negb (odr_save =? 0)
      then bf_set ctrl_reg1_odr ctrl_reg1 odr_save
      else ctrl_reg1 in
    let ctrl_reg1 := bf_set ctrl_reg1_odr ctrl_reg1 (uint8_t (odr val)) in
    let ctrl_reg1 := bf_set ctrl_reg1_avg ctrl_reg1 (uint8_t (avg val)) in
    let ctrl_reg2 :=
      bf_set ctrl_reg2_en_lpfp ctrl_reg2 (Z.land (uint8_t (lpf val)) 0x01) in
    let ctrl_reg2 :=
      bf_set ctrl_reg2_lfpf_cfg ctrl_reg2
             (Z.shiftr (Z.land (uint8_t (lpf val)) 0x02) 1) in
    let ctrl_reg2 := bf_set ctrl_reg2_fs_mode ctrl_reg2 (uint8_t (fs val)) in
    let reg := [bytecpy (nth 0 reg 0) ctrl_reg1;
                bytecpy (nth 1 reg 0) ctrl_reg2;
                bytecpy (nth 2 reg 0) ctrl_reg3] in
    r <- ilps28qsw_write_reg ctx ILPS28QSW_CTRL_REG1 reg 3 ;;
    io_ret (int32_t (ret + r))
  else io_ret ret.

Definition ilps28qsw_mode_get (ctx : option (stmdev_ctx_t H))
    (val : ilps28qsw_md_t) : io H (Z * ilps28qsw_md_t) :=
  let reg := auto_buffer 0 3 in
  '(ret, reg) <- ilps28qsw_read_reg ctx ILPS28QSW_CTRL_REG1 reg 3 ;;
  if ret =? 0 then
    let ctrl_reg1 := bytecpy 0 (nth 0 reg 0) in
    let ctrl_reg2 := bytecpy 0 (nth 1 reg 0) in
    let ctrl_reg3 := bytecpy 0 (nth 2 reg 0) in
    io_ret (ret, {|
      fs := switch (bf_get ctrl_reg2_fs_mode ctrl_reg2)
              [(ILPS28QSW_1260hPa, ILPS28QSW_1260hPa);
               (ILPS28QSW_4060hPa, ILPS28QSW_4060hPa)]
              ILPS28QSW_1260hPa;
      odr := switch (bf_get ctrl_reg1_odr ctrl_reg1)
              [(ILPS28QSW_ONE_SHOT, ILPS28QSW_ONE_SHOT);
               (ILPS28QSW_1Hz, ILPS28QSW_1Hz);
               (ILPS28QSW_4Hz, ILPS28QSW_4Hz);
               (ILPS28QSW_10Hz, ILPS28QSW_10Hz);
               (ILPS28QSW_25Hz, ILPS28QSW_25Hz);
               (ILPS28QSW_50Hz, ILPS28QSW_50Hz);
               (ILPS28QSW_75Hz, ILPS28QSW_75Hz);
               (ILPS28QSW_100Hz, ILPS28QSW_100Hz);
               (ILPS28QSW_200Hz, ILPS28QSW_200Hz)]
              ILPS28QSW_ONE_SHOT;
      avg := switch (bf_get ctrl_reg1_avg ctrl_reg1)
              [(ILPS28QSW_4_AVG, ILPS28QSW_4_AVG);
               (ILPS28QSW_8_AVG, ILPS28QSW_8_AVG);
               (ILPS28QSW_16_AVG, ILPS28QSW_16_AVG);
               (ILPS28QSW_32_AVG, ILPS28QSW_32_AVG);
               (ILPS28QSW_64_AVG, ILPS28QSW_64_AVG);
               (ILPS28QSW_128_AVG, ILPS28QSW_128_AVG);
               (ILPS28QSW_256_AVG, ILPS28QSW_256_AVG);
               (ILPS28QSW_512_AVG, ILPS28QSW_512_AVG)]
              ILPS28QSW_4_AVG;
      lpf := switch (Z.lor (Z.shiftl (bf_get ctrl_reg2_lfpf_cfg ctrl_reg2) 2)
                           (bf_get ctrl_reg2_en_lpfp ctrl_reg2))
              [(ILPS28QSW_LPF_DISABLE, ILPS28QSW_LPF_DISABLE);
               (ILPS28QSW_LPF_ODR_DIV_4, ILPS28QSW_LPF_ODR_DIV_4);
               (ILPS28QSW_LPF_ODR_DIV_9, ILPS28QSW_LPF_ODR_DIV_9)]
              ILPS28QSW_LPF_DISABLE;
      interleaved_mode := uint8_t (bf_get ctrl_reg3_ah_qvar_p_auto_en ctrl_reg3)
    |})
  else io_ret (ret, val).

(** *** Data output *)

Record ilps28qsw_data_t : Type := {
  pressure_hpa : float_t;
  pressure_raw : Z;
  heat_deg_c : float_t;
  heat_raw : Z;
  ah_qvar_lsb : Z
}.

Definition ilps28qsw_data_get (ctx : option (stmdev_ctx_t H))
    (md : ilps28qsw_md_t) : io H (Z * ilps28qsw_data_t) :=
  let buff := auto_buffer 0 5 in
  '(ret, buff) <- ilps28qsw_read_reg ctx ILPS28QSW_PRESS_OUT_XL buff 5 ;;
  (* pressure conversion *)
  let raw := int32_t (nth 2 buff 0) in
  let raw := int32_t (raw * 256 + nth 1 buff 0) in
  let code := int32_t (raw * 256 + nth 0 buff 0) in
  (* overflows when bit 23 of the code is set *)
  let raw := int32_t (code * 256) in
  let hpa_lsb :=
    if interleaved_mode md =? 1 then
      if Z.land (nth 0 buff 0) 0x1 =? 0 then
        (* data is a pressure sample *)
        (switch (fs md)
           [(ILPS28QSW_1260hPa, ilps28qsw_from_fs1260_to_hPa raw);
            (ILPS28QSW_4060hPa, ilps28qsw_from_fs4060_to_hPa raw)]
           (float_lit 0),
         0)
      else
        (* data is a AH_QVAR sample *)
        (float_lit 0, int32_t (quot_of_product code 256))
    else
      (switch (fs md)
         [(ILPS28QSW_1260hPa, ilps28qsw_from_fs1260_to_hPa raw);
          (ILPS28QSW_4060hPa, ilps28qsw_from_fs4060_to_hPa raw)]
         (float_lit 0),
       0) in
  (* temperature conversion *)
  let heat := int16_t (nth 4 buff 0) in
  let heat := int16_t (heat * 256 + int16_t (nth 3 buff 0)) in
  io_ret (ret, {|
    pressure_hpa := fst hpa_lsb;
    pressure_raw := raw;
    heat_deg_c := ilps28qsw_from_lsb_to_celsius heat;
    heat_raw := heat;
    ah_qvar_lsb := snd hpa_lsb
  |}).


(** *** FIFO functions *)

Record ilps28qsw_fifo_md_t : Set := {
  operation : Z;
  watermark : Z
}.

(** Modelled from the spec: the member [watermark] of ilps28qsw_fifo_md_t is
    declared in ilps28qsw_reg.h; the FIFO configuration holds a
    "watermark level 0-127", seven bits. *)
Definition fifo_md_watermark (v : Z) : Z := Z.land v (Z.ones 7).

Definition ilps28qsw_fifo_mode_set (ctx : option (stmdev_ctx_t H))
    (val : ilps28qsw_fifo_md_t) : io H Z :=
  let reg := auto_buffer 0 2 in
  '(ret, reg) <- ilps28qsw_read_reg ctx ILPS28QSW_FIFO_CTRL reg 2 ;;
  if ret =? 0 then
    let fifo_ctrl := bytecpy 0 (nth 0 reg 0) in
    let fifo_wtm := bytecpy 0 (nth 1 reg 0) in
    let fifo_ctrl :=
      bf_set fifo_ctrl_f_mode fifo_ctrl (Z.land (uint8_t (operation val)) 0x03) in
    let fifo_ctrl :=
      bf_set fifo_ctrl_trig_modes fifo_ctrl
             (Z.shiftr (Z.land (uint8_t (operation val)) 0x04) 2) in
    let fifo_ctrl :=
      if negb (watermark val =? 0x00)
      then bf_set fifo_ctrl_stop_on_wtm fifo_ctrl PROPERTY_ENABLE
      else bf_set fifo_ctrl_stop_on_wtm fifo_ctrl PROPERTY_DISABLE in
    let fifo_wtm := bf_set fifo_wtm_wtm fifo_wtm (watermark val) in
    let reg := [bytecpy (nth 0 reg 0) fifo_ctrl;
                bytecpy (nth 1 reg 0) fifo_wtm] in
    ilps28qsw_write_reg ctx ILPS28QSW_FIFO_CTRL reg 2
  else io_ret ret.

Definition ilps28qsw_fifo_mode_get (ctx : option (stmdev_ctx_t H))
  : io H (Z * ilps28qsw_fifo_md_t) :=
  let reg := auto_buffer 0 2 in
  '(ret, reg) <- ilps28qsw_read_reg ctx ILPS28QSW_FIFO_CTRL reg 2 ;;
  let fifo_ctrl := bytecpy 0 (nth 0 reg 0) in
  let fifo_wtm := bytecpy 0 (nth 1 reg 0) in
  io_ret (ret, {|
    operation :=
      switch (Z.lor (Z.shiftl (bf_get fifo_ctrl_trig_modes fifo_ctrl) 2)
                    (bf_get fifo_ctrl_f_mode fifo_ctrl))
        [(ILPS28QSW_BYPASS, ILPS28QSW_BYPASS);
         (ILPS28QSW_FIFO, ILPS28QSW_FIFO);
         (ILPS28QSW_STREAM, ILPS28QSW_STREAM);
         (ILPS28QSW_STREAM_TO_FIFO, ILPS28QSW_STREAM_TO_FIFO);
         (ILPS28QSW_BYPASS_TO_STREAM, ILPS28QSW_BYPASS_TO_STREAM);
         (ILPS28QSW_BYPASS_TO_FIFO, ILPS28QSW_BYPASS_TO_FIFO)]
        ILPS28QSW_BYPASS;
    watermark := fifo_md_watermark (bf_get fifo_wtm_wtm fifo_wtm)
  |}).

Record ilps28qsw_fifo_data_t : Type := {
  fifo_hpa : float_t;
  fifo_lsb : Z;
  fifo_raw : Z
}.

(** [data[i] = x]; the caller provides an array of at least [samp]
    elements. *)
Fixpoint array_set {A} (data : list A) (i : nat) (x : A) : list A :=
  match data, i with
  | [], _ => []
  | _ :: rest, O => x :: rest
  | d :: rest, S i' => d :: array_set rest i' x
  end.

(** The body of the loop of [ilps28qsw_fifo_data_get], run [n] more times
    from index [i]. *)
Fixpoint fifo_data_get_loop (ctx : option (stmdev_ctx_t H))
    (md : ilps28qsw_md_t) (n : nat) (i : nat) (ret : Z) (fifo_data : list Z)
    (data : list ilps28qsw_fifo_data_t)
  : io H (Z * list ilps28qsw_fifo_data_t) :=
  match n with
  | O => io_ret (ret, data)
  | S n' =>
      '(ret, fifo_data) <-
         ilps28qsw_read_reg ctx ILPS28QSW_FIFO_DATA_OUT_PRESS_XL fifo_data 3 ;;
      let raw := int32_t (nth 2 fifo_data 0) in
      let raw := int32_t (raw * 256 + nth 1 fifo_data 0) in
      let code := int32_t (raw * 256 + nth 0 fifo_data 0) in
      (* overflows when bit 23 of the code is set *)
      let raw := int32_t (code * 256) in
      let hpa_lsb :=
        if interleaved_mode md =? 1 then
          if Z.land (nth 0 fifo_data 0) 0x1 =? 0 then
            (* data is a pressure sample *)
            (switch (fs md)
               [(ILPS28QSW_1260hPa, ilps28qsw_from_fs1260_to_hPa raw);
                (ILPS28QSW_4060hPa, ilps28qsw_from_fs4060_to_hPa raw)]
               (float_lit 0),
             0)
          else
            (* data is a AH_QVAR sample *)
            (float_lit 0, int32_t (quot_of_product code 256))
        else
          (switch (fs md)
             [(ILPS28QSW_1260hPa, ilps28qsw_from_fs1260_to_hPa raw);
              (ILPS28QSW_4060hPa, ilps28qsw_from_fs4060_to_hPa raw)]
             (float_lit 0),
           0) in
      let data :=
        array_set data i {| fifo_hpa := fst hpa_lsb;
                            fifo_lsb := snd hpa_lsb;
                            fifo_raw := raw |} in
      fifo_data_get_loop ctx md n' (S i) ret fifo_data data
  end.

Definition ilps28qsw_fifo_data_get (ctx : option (stmdev_ctx_t H)) (samp : Z)
    (md : ilps28qsw_md_t) (data : list ilps28qsw_fifo_data_t)
  : io H (Z * list ilps28qsw_fifo_data_t) :=
  let fifo_data := auto_buffer 0 3 in
  fifo_data_get_loop ctx md (Z.to_nat (uint8_t samp)) 0%nat 0 fifo_data data.

(** *** Interrupt on threshold functions *)

Record ilps28qsw_int_th_md_t : Set := {
  threshold : Z;
  over_th : Z;
  under_th : Z
}.

(** Modelled from the spec: the members of ilps28qsw_int_th_md_t and
    ilps28qsw_ref_md_t are declared in ilps28qsw_reg.h; the enables and the
    auto-zero capture are flags, one bit each. *)
Definition md_flag (v : Z) : Z := Z.land v 1.

Definition ilps28qsw_int_on_threshold_mode_set (ctx : option (stmdev_ctx_t H))
    (val : ilps28qsw_int_th_md_t) : io H Z :=
  let reg := auto_buffer 0 3 in
  '(ret, reg) <- ilps28qsw_read_reg ctx ILPS28QSW_INTERRUPT_CFG reg 3 ;;
  if ret =? 0 then
    let interrupt_cfg := bytecpy 0 (nth 0 reg 0) in
    let ths_p_l := bytecpy 0 (nth 1 reg 0) in
    let ths_p_h := bytecpy 0 (nth 2 reg 0) in
    let interrupt_cfg := bf_set interrupt_cfg_phe interrupt_cfg (over_th val) in
    let interrupt_cfg := bf_set interrupt_cfg_ple interrupt_cfg (under_th val) in
    let ths_p_h := bf_set ths_p_h_ths ths_p_h (uint8_t (threshold val / 256)) in
    let ths_p_l :=
      bf_set ths_p_l_ths ths_p_l
        (uint8_t (uint32_t (threshold val - bf_get ths_p_h_ths ths_p_h * 256))) in
    let reg := [bytecpy (nth 0 reg 0) interrupt_cfg;
                bytecpy (nth 1 reg 0) ths_p_l;
                bytecpy (nth 2 reg 0) ths_p_h] in
    ilps28qsw_write_reg ctx ILPS28QSW_INTERRUPT_CFG reg 3
  else io_ret ret.

Definition ilps28qsw_int_on_threshold_mode_get (ctx : option (stmdev_ctx_t H))
  : io H (Z * ilps28qsw_int_th_md_t) :=
  let reg := auto_buffer 0 3 in
  '(ret, reg) <- ilps28qsw_read_reg ctx ILPS28QSW_INTERRUPT_CFG reg 3 ;;
  let interrupt_cfg := bytecpy 0 (nth 0 reg 0) in
  let ths_p_l := bytecpy 0 (nth 1 reg 0) in
  let ths_p_h := bytecpy 0 (nth 2 reg 0) in
  let threshold0 := uint16_t (bf_get ths_p_h_ths ths_p_h) in
  io_ret (ret, {|
    threshold := uint16_t (threshold0 * 256 + bf_get ths_p_l_ths ths_p_l);
    over_th := md_flag (bf_get interrupt_cfg_phe interrupt_cfg);
    under_th := md_flag (bf_get interrupt_cfg_ple interrupt_cfg)
  |}).

(** *** Reference value of pressure *)

Record ilps28qsw_ref_md_t : Set := {
  apply_ref : Z;
  get_ref : Z
}.

Definition ilps28qsw_reference_mode_set (ctx : option (stmdev_ctx_t H))
    (val : ilps28qsw_ref_md_t) : io H Z :=
  let interrupt_cfg := auto_buffer 0 1 in
  '(ret, interrupt_cfg) <-
     ilps28qsw_read_reg ctx ILPS28QSW_INTERRUPT_CFG interrupt_cfg 1 ;;
  if ret =? 0 then
    let interrupt_cfg := nth 0 interrupt_cfg 0 in
    let interrupt_cfg :=
      bf_set interrupt_cfg_autozero interrupt_cfg (get_ref val) in
    let interrupt_cfg :=
      bf_set interrupt_cfg_autorefp interrupt_cfg
             (Z.land (uint8_t (apply_ref val)) 0x01) in
    let interrupt_cfg :=
      bf_set interrupt_cfg_reset_az interrupt_cfg
             (Z.shiftr (Z.land (uint8_t (apply_ref val)) 0x02) 1) in
    let interrupt_cfg :=
      bf_set interrupt_cfg_reset_arp interrupt_cfg
             (Z.shiftr (Z.land (uint8_t (apply_ref val)) 0x02) 1) in
    ilps28qsw_write_reg ctx ILPS28QSW_INTERRUPT_CFG [interrupt_cfg] 1
  else io_ret ret.

Definition ilps28qsw_reference_mode_get (ctx : option (stmdev_ctx_t H))
  : io H (Z * ilps28qsw_ref_md_t) :=
  let interrupt_cfg := auto_buffer 0 1 in
  '(ret, interrupt_cfg) <-
     ilps28qsw_read_reg ctx ILPS28QSW_INTERRUPT_CFG interrupt_cfg 1 ;;
  let interrupt_cfg := nth 0 interrupt_cfg 0 in
  io_ret (ret, {|
    apply_ref :=
      switch (Z.lor (Z.shiftl (bf_get interrupt_cfg_reset_az interrupt_cfg) 1)
                    (bf_get interrupt_cfg_autorefp interrupt_cfg))
        [(ILPS28QSW_OUT_AND_INTERRUPT, ILPS28QSW_OUT_AND_INTERRUPT);
         (ILPS28QSW_ONLY_INTERRUPT, ILPS28QSW_ONLY_INTERRUPT)]
        ILPS28QSW_RST_REFS;
    get_ref := md_flag (bf_get interrupt_cfg_autozero interrupt_cfg)
  |}).

End Driver.

(** ** The rest of ilps28qsw_reg.h

    What the remaining functions of the driver use of the header. *)

Class ilps28qsw_reg_h_more : Set := {
  (* register addresses *)
  ILPS28QSW_IF_CTRL : Z;
  ILPS28QSW_WHO_AM_I : Z;
  ILPS28QSW_REF_P_L : Z;
  ILPS28QSW_I3C_IF_CTRL : Z;
  ILPS28QSW_RPDS_L : Z;
  ILPS28QSW_FIFO_STATUS1 : Z;
  ILPS28QSW_FIFO_STATUS2 : Z;
  ILPS28QSW_TEMP_OUT_L : Z;
  (* members of the register structures *)
  interrupt_cfg_lir : bitfield;
  if_ctrl_sda_pu_en : bitfield;
  ctrl_reg2_bdu : bitfield;
  ctrl_reg2_boot : bitfield;
  ctrl_reg3_if_add_inc : bitfield;
  i3c_if_ctrl_I3C_Bus_Avb_Sel : bitfield;
  i3c_if_ctrl_asf_on : bitfield;
  int_source_ph : bitfield;
  int_source_pl : bitfield;
  int_source_ia : bitfield;
  fifo_status1_fss : bitfield;
  fifo_status2_fifo_wtm_ia : bitfield;
  fifo_status2_fifo_ovr_ia : bitfield;
  fifo_status2_fifo_full_ia : bitfield;
  (* width of the flags of ilps28qsw_pin_conf_t, ilps28qsw_all_sources_t
     and ilps28qsw_int_mode_t *)
  pin_conf_flag_bits : Z;
  all_sources_flag_bits : Z;
  int_mode_flag_bits : Z;
  (* enumerators of ilps28qsw_bus_mode_t *)
  ILPS28QSW_AUTO : Z;
  ILPS28QSW_ALWAYS_ON : Z;
  ILPS28QSW_BUS_AVB_TIME_50us : Z;
  ILPS28QSW_BUS_AVB_TIME_2us : Z;
  ILPS28QSW_BUS_AVB_TIME_1ms : Z;
  ILPS28QSW_BUS_AVB_TIME_25ms : Z;
  (* enumerators of ilps28qsw_init_t *)
  ILPS28QSW_BOOT : Z;
  ILPS28QSW_RESET : Z;
  ILPS28QSW_DRV_RDY : Z
}.

(** The values of the register map of the device. *)
Definition device_header_more : ilps28qsw_reg_h_more := {|
  ILPS28QSW_IF_CTRL := 0x0E;
  ILPS28QSW_WHO_AM_I := 0x0F;
  ILPS28QSW_REF_P_L := 0x16;
  ILPS28QSW_I3C_IF_CTRL := 0x19;
  ILPS28QSW_RPDS_L := 0x1A;
  ILPS28QSW_FIFO_STATUS1 := 0x25;
  ILPS28QSW_FIFO_STATUS2 := 0x26;
  ILPS28QSW_TEMP_OUT_L := 0x2B;
  interrupt_cfg_lir := BitField 2 1;
  if_ctrl_sda_pu_en := BitField 4 1;
  ctrl_reg2_bdu := BitField 3 1;
  ctrl_reg2_boot := BitField 7 1;
  ctrl_reg3_if_add_inc := BitField 0 1;
  i3c_if_ctrl_I3C_Bus_Avb_Sel := BitField 0 2;
  i3c_if_ctrl_asf_on := BitField 5 1;
  int_source_ph := BitField 0 1;
  int_source_pl := BitField 1 1;
  int_source_ia := BitField 2 1;
  fifo_status1_fss := BitField 0 8;
  fifo_status2_fifo_wtm_ia := BitField 5 1;
  fifo_status2_fifo_ovr_ia := BitField 6 1;
  fifo_status2_fifo_full_ia := BitField 7 1;
  pin_conf_flag_bits := 1;
  all_sources_flag_bits := 1;
  int_mode_flag_bits := 1;
  ILPS28QSW_AUTO := 0;
  ILPS28QSW_ALWAYS_ON := 1;
  ILPS28QSW_BUS_AVB_TIME_50us := 0;
  ILPS28QSW_BUS_AVB_TIME_2us := 1;
  ILPS28QSW_BUS_AVB_TIME_1ms := 2;
  ILPS28QSW_BUS_AVB_TIME_25ms := 3;
  ILPS28QSW_BOOT := 1;
  ILPS28QSW_RESET := 2;
  ILPS28QSW_DRV_RDY := 0
|}.

Section DriverMore.

Context {H : Type}.
Context {hdr : ilps28qsw_reg_h}.
Context {hdm : ilps28qsw_reg_h_more}.
Context {fl : float_ops}.
Context {bld : c_build}.
Variable indeterminate : nat -> Z.

(** *** Basic functions *)


(** The member [filter] is named [bus_filter] here. *)
Record ilps28qsw_bus_mode_t : Set := {
  bus_filter : Z;
  bus_avb_time : Z
}.

Definition ilps28qsw_bus_mode_set (ctx : option (stmdev_ctx_t H))
    (val : ilps28qsw_bus_mode_t) : io H Z :=
  let i3c_if_ctrl := auto_buffer indeterminate 0 1 in
  '(ret, i3c_if_ctrl) <-
     ilps28qsw_read_reg ctx ILPS28QSW_I3C_IF_CTRL i3c_if_ctrl 1 ;;
  if ret =? 0 then
    let i3c_if_ctrl := nth 0 i3c_if_ctrl 0 in
    let i3c_if_ctrl :=
      bf_set i3c_if_ctrl_asf_on i3c_if_ctrl
             (Z.land (uint8_t (bus_filter val)) 0x01) in
    let i3c_if_ctrl :=
      bf_set i3c_if_ctrl_I3C_Bus_Avb_Sel i3c_if_ctrl
             (Z.land (uint8_t (bus_avb_time val)) 0x03) in
    ilps28qsw_write_reg ctx ILPS28QSW_I3C_IF_CTRL [i3c_if_ctrl] 1
  else io_ret ret.

Definition ilps28qsw_bus_mode_get (ctx : option (stmdev_ctx_t H))
    (val : ilps28qsw_bus_mode_t) : io H (Z * ilps28qsw_bus_mode_t) :=
  let i3c_if_ctrl := auto_buffer indeterminate 0 1 in
  '(ret, i3c_if_ctrl) <-
     ilps28qsw_read_reg ctx ILPS28QSW_I3C_IF_CTRL i3c_if_ctrl 1 ;;
  if ret =? 0 then
    let i3c_if_ctrl := nth 0 i3c_if_ctrl 0 in
    io_ret (ret, {|
      bus_filter :=
        switch (bf_get i3c_if_ctrl_asf_on i3c_if_ctrl)
          [(ILPS28QSW_AUTO, ILPS28QSW_AUTO);
           (ILPS28QSW_ALWAYS_ON, ILPS28QSW_ALWAYS_ON)]
          ILPS28QSW_AUTO;
      bus_avb_time :=
        switch (bf_get i3c_if_ctrl_I3C_Bus_Avb_Sel i3c_if_ctrl)
          [(ILPS28QSW_BUS_AVB_TIME_50us, ILPS28QSW_BUS_AVB_TIME_50us);
           (ILPS28QSW_BUS_AVB_TIME_2us, ILPS28QSW_BUS_AVB_TIME_2us);
           (ILPS28QSW_BUS_AVB_TIME_1ms, ILPS28QSW_BUS_AVB_TIME_1ms);
           (ILPS28QSW_BUS_AVB_TIME_25ms, ILPS28QSW_BUS_AVB_TIME_25ms)]
          ILPS28QSW_BUS_AVB_TIME_50us
    |})
  else io_ret (ret, val).

Definition ilps28qsw_init_set (ctx : option (stmdev_ctx_t H)) (val : Z)
  : io H Z :=
  let reg := auto_buffer indeterminate 0 2 in
  '(ret, reg) <- ilps28qsw_read_reg ctx ILPS28QSW_CTRL_REG2 reg 2 ;;
  if ret =? 0 then
    let ctrl_reg2 := bytecpy 0 (nth 0 reg 0) in
    let ctrl_reg3 := bytecpy 0 (nth 1 reg 0) in
    switch val
      [(ILPS28QSW_BOOT,
        let ctrl_reg2 := bf_set ctrl_reg2_boot ctrl_reg2 PROPERTY_ENABLE in
        ilps28qsw_write_reg ctx ILPS28QSW_CTRL_REG2 [ctrl_reg2] 1);
       (ILPS28QSW_RESET,
        let ctrl_reg2 := bf_set ctrl_reg2_swreset ctrl_reg2 PROPERTY_ENABLE in
        ilps28qsw_write_reg ctx ILPS28QSW_CTRL_REG2 [ctrl_reg2] 1);
       (ILPS28QSW_DRV_RDY,
        let ctrl_reg2 := bf_set ctrl_reg2_bdu ctrl_reg2 PROPERTY_ENABLE in
        let ctrl_reg3 :=
          bf_set ctrl_reg3_if_add_inc ctrl_reg3 PROPERTY_ENABLE in
        let reg := [bytecpy (nth 0 reg 0) ctrl_reg2;
                    bytecpy (nth 1 reg 0) ctrl_reg3] in
        ilps28qsw_write_reg ctx ILPS28QSW_CTRL_REG2 reg 2)]
      (let ctrl_reg2 := bf_set ctrl_reg2_swreset ctrl_reg2 PROPERTY_ENABLE in
       ilps28qsw_write_reg ctx ILPS28QSW_CTRL_REG2 [ctrl_reg2] 1)
  else io_ret ret.

Definition ilps28qsw_pin_conf_set (ctx : option (stmdev_ctx_t H))
    (sda_pull_up : Z) : io H Z :=
  let if_ctrl := auto_buffer indeterminate 0 1 in
  '(ret, if_ctrl) <- ilps28qsw_read_reg ctx ILPS28QSW_IF_CTRL if_ctrl 1 ;;
  if ret =? 0 then
    let if_ctrl := bf_set if_ctrl_sda_pu_en (nth 0 if_ctrl 0) sda_pull_up in
    ilps28qsw_write_reg ctx ILPS28QSW_IF_CTRL [if_ctrl] 1
  else io_ret ret.

Definition ilps28qsw_pin_conf_get (ctx : option (stmdev_ctx_t H))
  : io H (Z * Z) :=
  let if_ctrl := auto_buffer indeterminate 0 1 in
  '(ret, if_ctrl) <- ilps28qsw_read_reg ctx ILPS28QSW_IF_CTRL if_ctrl 1 ;;
  io_ret (ret, Z.land (bf_get if_ctrl_sda_pu_en (nth 0 if_ctrl 0))
                      (Z.ones pin_conf_flag_bits)).




Definition ilps28qsw_trigger_sw (ctx : option (stmdev_ctx_t H))
    (md : ilps28qsw_md_t) : io H Z :=
  let ctrl_reg2 := auto_buffer indeterminate 0 1 in
  let ret := 0 in
  if odr md =? ILPS28QSW_ONE_SHOT then
    '(ret, ctrl_reg2) <-
       ilps28qsw_read_reg ctx ILPS28QSW_CTRL_REG2 ctrl_reg2 1 ;;
    let ctrl_reg2 :=
      bf_set ctrl_reg2_oneshot (nth 0 ctrl_reg2 0) PROPERTY_ENABLE in
    if ret =? 0
    then ilps28qsw_write_reg ctx ILPS28QSW_CTRL_REG2 [ctrl_reg2] 1
    else io_ret ret
  else io_ret ret.

Definition ilps28qsw_ah_qvar_en_set (ctx : option (stmdev_ctx_t H)) (val : Z)
  : io H Z :=
  let ctrl_reg3 := auto_buffer indeterminate 0 1 in
  '(ret, ctrl_reg3) <- ilps28qsw_read_reg ctx ILPS28QSW_CTRL_REG3 ctrl_reg3 1 ;;
  if ret =? 0 then
    let ctrl_reg3 := bf_set ctrl_reg3_ah_qvar_en (nth 0 ctrl_reg3 0) val in
    ilps28qsw_write_reg ctx ILPS28QSW_CTRL_REG3 [ctrl_reg3] 1
  else io_ret ret.

Definition ilps28qsw_ah_qvar_en_get (ctx : option (stmdev_ctx_t H))
  : io H (Z * Z) :=
  let ctrl_reg3 := auto_buffer indeterminate 0 1 in
  '(ret, ctrl_reg3) <- ilps28qsw_read_reg ctx ILPS28QSW_CTRL_REG3 ctrl_reg3 1 ;;
  io_ret (ret, uint8_t (bf_get ctrl_reg3_ah_qvar_en (nth 0 ctrl_reg3 0))).

(** *** Data output *)




(** *** FIFO functions *)


(** *** Interrupt signals *)

Definition ilps28qsw_interrupt_mode_set (ctx : option (stmdev_ctx_t H))
    (int_latched : Z) : io H Z :=
  let interrupt_cfg := auto_buffer indeterminate 0 1 in
  '(ret, interrupt_cfg) <-
     ilps28qsw_read_reg ctx ILPS28QSW_INTERRUPT_CFG interrupt_cfg 1 ;;
  if ret =? 0 then
    let interrupt_cfg :=
      bf_set interrupt_cfg_lir (nth 0 interrupt_cfg 0) int_latched in
    ilps28qsw_write_reg ctx ILPS28QSW_INTERRUPT_CFG [interrupt_cfg] 1
  else io_ret ret.

Definition ilps28qsw_interrupt_mode_get (ctx : option (stmdev_ctx_t H))
  : io H (Z * Z) :=
  let interrupt_cfg := auto_buffer indeterminate 0 1 in
  '(ret, interrupt_cfg) <-
     ilps28qsw_read_reg ctx ILPS28QSW_INTERRUPT_CFG interrupt_cfg 1 ;;
  io_ret (ret, Z.land (bf_get interrupt_cfg_lir (nth 0 interrupt_cfg 0))
                      (Z.ones int_mode_flag_bits)).

(** *** Reference value of pressure *)


Definition ilps28qsw_opc_set (ctx : option (stmdev_ctx_t H)) (val : Z)
  : io H Z :=
  let reg1 := uint8_t (Z.land (uint16_t val) 0xFF00 / 256) in
  let reg0 := uint8_t (Z.land (uint16_t val) 0x00FF) in
  ilps28qsw_write_reg ctx ILPS28QSW_RPDS_L [reg0; reg1] 2.

Definition ilps28qsw_opc_get (ctx : option (stmdev_ctx_t H)) : io H (Z * Z) :=
  let reg := auto_buffer indeterminate 0 2 in
  '(ret, reg) <- ilps28qsw_read_reg ctx ILPS28QSW_RPDS_L reg 2 ;;
  let val := int16_t (nth 1 reg 0) in
  let val := int16_t (val * 256 + int16_t (nth 0 reg 0)) in
  io_ret (ret, val).

End DriverMore.

(** ** A test double of the transport

    A register file that stores the bytes written to it, with
    auto-increment of the address within a burst, and a script of the
    statuses that the successive calls return (0 once it is exhausted). *)

Record test_double : Type := {
  regs : Z -> Z;
  script : list Z
}.

Fixpoint store (r : Z -> Z) (reg : Z) (data : list Z) : Z -> Z :=
  match data with
  | [] => r
  | b :: rest => store (fun a => if a =? reg then uint8_t b else r a) (reg + 1) rest
  end.

Definition load (r : Z -> Z) (reg : Z) (len : nat) : list Z :=
  map (fun i => r (reg + Z.of_nat i)) (seq 0 len).

Definition double_ctx : stmdev_ctx_t test_double := {|
  write_reg := fun d reg data len =>
    (hd 0 (script d),
     {| regs := store (regs d) reg (firstn (Z.to_nat len) data);
        script := tl (script d) |});
  read_reg := fun d reg data len =>
    (hd 0 (script d),
     load (regs d) reg (Z.to_nat len),
     {| regs := regs d; script := tl (script d) |})
|}.

(** The device that stores what is written and never fails. *)
Definition device (r : Z -> Z) : test_double := {| regs := r; script := [] |}.

Definition no_junk : nat -> Z := fun _ => 0.

(** ** Definitions that follow the words of the specification *)

(** The 24-bit code that three little-endian output bytes hold. *)
Definition code24 (b0 b1 b2 : Z) : Z := b2 * 65536 + b1 * 256 + b0.

(** Sign extension of a 24-bit two's-complement code. *)
Definition sign_extend24 (v : Z) : Z :=
  if Z.testbit v 23 then v - 16777216 else v.


(** The decode policy: a pattern of the enumeration decodes to itself, any
    other pattern to the default. *)
Definition decodes_to (enum : list Z) (default pattern v : Z) : Prop :=
  (In pattern enum -> v = pattern) /\ (~ In pattern enum -> v = default).


(** The status of the last call of a sequence, 0 when there was none. *)
Definition last_status (t : list bus_event) : Z :=
  event_status (last t (BusRead 0 0 [] 0)).


(** ** Concrete inputs *)

(** A register file in which the device is running at 10 Hz (rate 3) with
    QVAR enabled and address auto-increment on; every other register is 0. *)
Definition running_device (a : Z) : Z :=
  if a =? 0x10 then 0x18 else if a =? 0x12 then 0x81
  else if a =? 0x14 then 0x03 else 0.

Definition interleaved_50Hz : ilps28qsw_md_t :=
  {| fs := 1; odr := 5; avg := 2; lpf := 1; interleaved_mode := 1 |}.

(** The same request with the filter at ODR/9. *)
Definition div9_mode : ilps28qsw_md_t :=
  {| fs := 1; odr := 5; avg := 2; lpf := 3; interleaved_mode := 1 |}.

(** A threshold that uses bit 15. *)
Definition threshold_top_bit : ilps28qsw_int_th_md_t :=
  {| threshold := 32768; over_th := 1; under_th := 0 |}.

Definition stream_with_watermark : ilps28qsw_fifo_md_t :=
  {| operation := 2; watermark := 50 |}.



(** Output registers that hold the 24-bit code 0x830201 (bit 0 set) and the
    temperature 0. *)
Definition qvar_sample (a : Z) : Z :=
  if a =? 0x28 then 0x01 else if a =? 0x29 then 0x02
  else if a =? 0x2A then 0x83 else 0.

(** The first two of three FIFO reads fail. *)
Definition fifo_reads_fail_first : test_double :=
  {| regs := qvar_sample; script := [5; 6; 0] |}.

(** A FIFO control register with the interleave enable set. *)
Definition fifo_interleaved_device (a : Z) : Z :=
  if a =? 0x14 then 0x13 else 0.


(** ** Definitions used by the statements *)

Definition device_bytes (r : Z -> Z) (reg : Z) (n : nat) : list Z :=
  map uint8_t (load r reg n).

Section Statements.

Context {hdr : ilps28qsw_reg_h}.

(** A read of three bytes from the FIFO output register. *)
Definition is_fifo_read (e : bus_event) : Prop :=
  exists data status, e = BusRead ILPS28QSW_FIFO_DATA_OUT_PRESS_XL 3 data status.

(** The two bytes that [ilps28qsw_fifo_mode_set] writes back, from the two
    that it read. *)
Definition fifo_ctrl_written (val : ilps28qsw_fifo_md_t) (fifo_ctrl : Z) : Z :=
  let fifo_ctrl :=
    bf_set fifo_ctrl_f_mode fifo_ctrl (Z.land (uint8_t (operation val)) 3) in
  let fifo_ctrl :=
    bf_set fifo_ctrl_trig_modes fifo_ctrl
           (Z.shiftr (Z.land (uint8_t (operation val)) 4) 2) in
  bf_set fifo_ctrl_stop_on_wtm fifo_ctrl
         (if watermark val =? 0 then PROPERTY_DISABLE else PROPERTY_ENABLE).

Definition fifo_wtm_written (val : ilps28qsw_fifo_md_t) (fifo_wtm : Z) : Z :=
  bf_set fifo_wtm_wtm fifo_wtm (watermark val).

(** The values of the configuration structures that the header documents. *)
Definition md_domain (x : ilps28qsw_md_t) : Prop :=
  In (fs x) [ILPS28QSW_1260hPa; ILPS28QSW_4060hPa] /\
  In (odr x) [ILPS28QSW_ONE_SHOT; ILPS28QSW_1Hz; ILPS28QSW_4Hz;
              ILPS28QSW_10Hz; ILPS28QSW_25Hz; ILPS28QSW_50Hz;
              ILPS28QSW_75Hz; ILPS28QSW_100Hz; ILPS28QSW_200Hz] /\
  In (avg x) [ILPS28QSW_4_AVG; ILPS28QSW_8_AVG; ILPS28QSW_16_AVG;
              ILPS28QSW_32_AVG; ILPS28QSW_64_AVG; ILPS28QSW_128_AVG;
              ILPS28QSW_256_AVG; ILPS28QSW_512_AVG] /\
  In (lpf x) [ILPS28QSW_LPF_DISABLE; ILPS28QSW_LPF_ODR_DIV_4;
              ILPS28QSW_LPF_ODR_DIV_9] /\
  In (interleaved_mode x) [0; 1].

Definition fifo_md_domain (x : ilps28qsw_fifo_md_t) : Prop :=
  In (operation x) [ILPS28QSW_BYPASS; ILPS28QSW_FIFO; ILPS28QSW_STREAM;
                    ILPS28QSW_STREAM_TO_FIFO; ILPS28QSW_BYPASS_TO_STREAM;
                    ILPS28QSW_BYPASS_TO_FIFO] /\
  0 <= watermark x < 128.

Definition int_th_md_domain (x : ilps28qsw_int_th_md_t) : Prop :=
  0 <= threshold x < 65536 /\ In (over_th x) [0; 1] /\ In (under_th x) [0; 1].

Definition ref_md_domain (x : ilps28qsw_ref_md_t) : Prop :=
  In (apply_ref x) [ILPS28QSW_OUT_AND_INTERRUPT; ILPS28QSW_ONLY_INTERRUPT;
                    ILPS28QSW_RST_REFS] /\
  In (get_ref x) [0; 1].

End Statements.

(** ** Definitions used by the further statements *)


(** The 16-bit code that two little-endian bytes hold, and its value as a
    two's-complement number. *)
Definition code16 (b0 b1 : Z) : Z := b1 * 256 + b0.

Definition sign_extend16 (v : Z) : Z :=
  if Z.testbit v 15 then v - 65536 else v.





(** The members of one register structure: each within the byte, no two
    overlapping. *)
Fixpoint pairwise {A} (p : A -> A -> bool) (l : list A) : bool :=
  match l with
  | [] => true
  | x :: rest => forallb (p x) rest && pairwise p rest
  end.

Definition layout_ok (members : list bitfield) : bool :=
  forallb bf_wf members && pairwise bf_disjoint members.


(** The bits of a byte outside a member are those of another byte. *)
Definition same_outside (f : bitfield) (b b' : Z) : Prop :=
  forall i, 0 <= i -> bf_inside f i = false -> Z.testbit b' i = Z.testbit b i.

(** The transport answers the read of [len] bytes at [reg], made in the
    state [h] into the buffer [buf], with the status [st]; the buffer then
    holds [bytes] and the bus is in the state [h']. *)
Definition transport_read {H : Type} (c : stmdev_ctx_t H) (h : H) (reg : Z)
    (buf : list Z) (len : Z) (st : Z) (bytes : list Z) (h' : H) : Prop :=
  exists data,
    read_reg c h reg buf len = (st, data, h') /\ buffer_fit buf data = bytes.

(** What the transport answers to [n] reads of [len] bytes at [reg] made one
    after the other, each into the buffer as the read before left it: the
    calls with their bytes and statuses, and the state of the bus after the
    last of them. *)
Fixpoint transport_reads {H : Type} (c : stmdev_ctx_t H) (reg len : Z)
    (n : nat) (buf : list Z) (h : H) : list bus_event * H :=
  match n with
  | O => ([], h)
  | S n' =>
      let '(st, data, h1) := read_reg c h reg buf len in
      let bytes := buffer_fit buf data in
      let '(rest, h2) := transport_reads c reg len n' bytes h1 in
      (BusRead reg len bytes (int32_t st) :: rest, h2)
  end.

Section FurtherStatements.

Context {hdr : ilps28qsw_reg_h} {fl : float_ops}.


End FurtherStatements.

(** Interrupt configuration with the latch and the auto-zero bit set, and a
    threshold of 300. *)
Definition interrupt_device (a : Z) : Z :=
  if a =? 0x0B then 0x24 else if a =? 0x0C then 44
  else if a =? 0x0D then 1 else 0.



Definition one_shot_mode : ilps28qsw_md_t :=
  {| fs := 0; odr := 0; avg := 0; lpf := 0; interleaved_mode := 0 |}.

(** Control register 2 with the 4060 hPa full scale and BDU set, control
    register 3 with the address auto-increment, and the offset -2. *)
Definition configured_device (a : Z) : Z :=
  if a =? 0x11 then 0x48 else if a =? 0x12 then 0x01
  else if a =? 0x1A then 0xFE else if a =? 0x1B then 0xFF else 0.

(** Output registers with the pressure code 0x400000 and the temperature
    code 0xFC18, that is -1000. *)
Definition cold_sample (a : Z) : Z :=
  if a =? 0x2A then 0x40 else if a =? 0x2B then 0x18
  else if a =? 0x2C then 0xFC else 0.

(** The bus mode with the filter always on and a bus-available time of
    1 ms. *)
Definition always_on_1ms : ilps28qsw_bus_mode_t :=
  {| bus_filter := 1; bus_avb_time := 2 |}.

Definition auto_50us : ilps28qsw_bus_mode_t :=
  {| bus_filter := 0; bus_avb_time := 0 |}.

(** A one-shot reference request. *)
Definition reference_once : ilps28qsw_ref_md_t :=
  {| apply_ref := 1; get_ref := 1 |}.


Definition blank_element : ilps28qsw_fifo_data_t (fl := exact_float) :=
  {| fifo_hpa := float_lit 0; fifo_lsb := 0; fifo_raw := 0 |}.

(** Output registers that hold the positive code 0x030201 (bit 0 set). *)
Definition positive_qvar_sample (a : Z) : Z :=
  if a =? 0x28 then 0x01 else if a =? 0x29 then 0x02
  else if a =? 0x2A then 0x03 else 0.

(** The last of three FIFO reads fails. *)
Definition fifo_reads_fail_last : test_double :=
  {| regs := qvar_sample; script := [5; 0; 6] |}.

(** Output registers and FIFO output registers that hold the same sample,
    the code 0x030201, with the temperature at 0. *)
Definition mirrored_sample (a : Z) : Z :=
  if (a =? 0x28) || (a =? 0x78) then 0x01
  else if (a =? 0x29) || (a =? 0x79) then 0x02
  else if (a =? 0x2A) || (a =? 0x7A) then 0x03 else 0.

(** ** Arithmetic of the integer types *)


Lemma int32_t_small x : -2147483648 <= x < 2147483648 -> int32_t x = x.
Proof. intros Hx. unfold int32_t. rewrite Z.mod_small; lia. Qed.


Lemma uint8_t_range x : 0 <= uint8_t x < 256.
Proof. unfold uint8_t. apply Z.mod_pos_bound. lia. Qed.

Lemma uint8_t_small x : 0 <= x < 256 -> uint8_t x = x.
Proof. intros Hx. unfold uint8_t. apply Z.mod_small; lia. Qed.

(** ** Bit-fields *)

Lemma testbit_ones w i :
  0 <= w -> Z.testbit (Z.ones w) i = (0 <=? i) && (i <? w).
Proof.
  intros Hw. destruct (Z.leb_spec 0 i) as [Hi|Hi].
  - apply Z.testbit_ones_nonneg; assumption.
  - apply Z.testbit_neg_r; assumption.
Qed.

Lemma bf_get_testbit f s i :
  0 <= bf_lsb f -> 0 <= bf_width f -> 0 <= i ->
  Z.testbit (bf_get f s) i = (i <? bf_width f) && Z.testbit s (i + bf_lsb f).
Proof.
  intros Hl Hw Hi. unfold bf_get.
  rewrite Z.land_spec, Z.shiftr_spec, testbit_ones by assumption.
  destruct (Z.leb_spec 0 i); [|lia]. cbn [andb]. apply andb_comm.
Qed.

Lemma bf_set_testbit f s v i :
  0 <= bf_lsb f -> 0 <= bf_width f -> 0 <= i ->
  Z.testbit (bf_set f s v) i =
  if bf_inside f i then Z.testbit v (i - bf_lsb f) else Z.testbit s i.
Proof.
  intros Hl Hw Hi. unfold bf_set, bf_inside.
  rewrite Z.lor_spec, Z.land_spec, Z.lnot_spec, !Z.shiftl_spec by assumption.
  rewrite Z.land_spec, !testbit_ones by assumption.
  destruct (Z.leb_spec (bf_lsb f) i) as [H1|H1];
    destruct (Z.ltb_spec i (bf_lsb f + bf_width f)) as [H2|H2]; cbn [andb].
  - destruct (Z.leb_spec 0 (i - bf_lsb f)); [|lia].
    destruct (Z.ltb_spec (i - bf_lsb f) (bf_width f)); [|lia].
    cbn. rewrite andb_false_r, andb_true_r. reflexivity.
  - destruct (Z.leb_spec 0 (i - bf_lsb f)); [|lia].
    destruct (Z.ltb_spec (i - bf_lsb f) (bf_width f)); [lia|].
    cbn. rewrite andb_true_r, andb_false_r, orb_false_r. reflexivity.
  - rewrite (Z.testbit_neg_r v) by lia.
    destruct (Z.leb_spec 0 (i - bf_lsb f)); [lia|].
    cbn. rewrite andb_true_r, orb_false_r. reflexivity.
  - lia.
Qed.

Lemma bf_get_range f s : 0 <= bf_width f -> 0 <= bf_get f s < 2 ^ bf_width f.
Proof.
  intros Hw. unfold bf_get. rewrite Z.land_ones by assumption.
  apply Z.mod_pos_bound. apply Z.pow_pos_nonneg; lia.
Qed.

Lemma bf_get_set_same f s v :
  0 <= bf_lsb f -> 0 <= bf_width f ->
  bf_get f (bf_set f s v) = Z.land v (Z.ones (bf_width f)).
Proof.
  intros Hl Hw. apply Z.bits_inj'. intros i Hi.
  rewrite bf_get_testbit, bf_set_testbit by lia.
  rewrite Z.land_spec, testbit_ones by assumption.
  unfold bf_inside.
  destruct (Z.ltb_spec i (bf_width f)) as [H1|H1]; cbn [andb].
  - destruct (Z.leb_spec (bf_lsb f) (i + bf_lsb f)); [|lia].
    destruct (Z.ltb_spec (i + bf_lsb f) (bf_lsb f + bf_width f)); [|lia].
    destruct (Z.leb_spec 0 i); [|lia].
    cbn. rewrite andb_true_r. f_equal. lia.
  - destruct (Z.leb_spec 0 i); [|lia].
    cbn. rewrite andb_false_r. reflexivity.
Qed.

Lemma bf_get_set_other f g s v :
  0 <= bf_lsb f -> 0 <= bf_width f -> 0 <= bf_lsb g -> 0 <= bf_width g ->
  bf_disjoint f g = true ->
  bf_get g (bf_set f s v) = bf_get g s.
Proof.
  intros Hl Hw Hlg Hwg Hd. apply Z.bits_inj'. intros i Hi.
  rewrite !bf_get_testbit, bf_set_testbit by lia.
  destruct (Z.ltb_spec i (bf_width g)) as [H1|H1]; cbn [andb]; [|reflexivity].
  unfold bf_disjoint in Hd. unfold bf_inside.
  apply orb_true_iff in Hd. rewrite !Z.leb_le in Hd.
  destruct (Z.leb_spec (bf_lsb f) (i + bf_lsb g));
    destruct (Z.ltb_spec (i + bf_lsb g) (bf_lsb f + bf_width f));
    cbn [andb]; try reflexivity; lia.
Qed.

Lemma bf_set_byte f s v :
  bf_wf f = true -> 0 <= s < 256 -> 0 <= bf_set f s v < 256.
Proof.
  unfold bf_wf. rewrite !andb_true_iff, !Z.leb_le, Z.ltb_lt.
  intros [[Hl Hw] H8] Hs.
  assert (Hb : forall i, 8 <= i -> Z.testbit (bf_set f s v) i = false).
  { intros i Hi. rewrite bf_set_testbit by lia. unfold bf_inside.
    destruct (Z.ltb_spec i (bf_lsb f + bf_width f)); [lia|].
    rewrite andb_false_r.
    destruct (Z.eq_dec s 0) as [->|Hne]; [apply Z.bits_0|].
    apply Z.bits_above_log2; [lia|].
    assert (Z.log2 s < 8) by (apply Z.log2_lt_pow2; lia). lia. }
  assert (Hn : 0 <= bf_set f s v).
  { unfold bf_set. apply Z.lor_nonneg. split.
    - apply Z.land_nonneg. left. lia.
    - apply Z.shiftl_nonneg. apply Z.land_nonneg. right.
      rewrite Z.ones_equiv. pose proof (Z.pow_pos_nonneg 2 (bf_width f)). lia. }
  split; [assumption|].
  destruct (Z.eq_dec (bf_set f s v) 0) as [->|Hne]; [lia|].
  destruct (Z.lt_ge_cases (bf_set f s v) 256) as [|Hge]; [assumption|exfalso].
  assert (Hlog : 8 <= Z.log2 (bf_set f s v)).
  { change 8 with (Z.log2 256). apply Z.log2_le_mono. assumption. }
  specialize (Hb _ Hlog). rewrite Z.bit_log2 in Hb by lia. discriminate.
Qed.

(** ** The monad and the buffers *)

Lemma buffer_fit_length old new : length (buffer_fit old new) = length old.
Proof.
  unfold buffer_fit. rewrite length_map, length_firstn, length_app, length_skipn.
  lia.
Qed.

Lemma buffer_fit_bytes old new : Forall (fun b => 0 <= b < 256) (buffer_fit old new).
Proof.
  unfold buffer_fit. apply Forall_forall. intros b Hb.
  apply in_map_iff in Hb. destruct Hb as [x [<- _]]. apply uint8_t_range.
Qed.

Lemma auto_buffer_length (junk : nat -> Z) from len :
  length (auto_buffer junk from len) = len.
Proof. unfold auto_buffer. rewrite length_map, length_seq. reflexivity. Qed.

Lemma length_one {A} (l : list A) : length l = 1%nat -> exists x, l = [x].
Proof.
  destruct l as [|x [|y l]]; cbn; intros Hl; try discriminate.
  exists x. reflexivity.
Qed.

Arguments int32_t : simpl never.
Arguments uint8_t : simpl never.
Arguments uint16_t : simpl never.
Arguments uint32_t : simpl never.
Arguments int16_t : simpl never.
Arguments bf_get : simpl never.
Arguments bf_set : simpl never.
Arguments buffer_fit : simpl never.
Arguments auto_buffer : simpl never.

(** Unfolds one driver function down to the calls of the transport. *)
Ltac driver_unfold :=
  unfold io_bind, ilps28qsw_read_reg, ilps28qsw_write_reg, io_ret,
    result, calls, bus_after, bytecpy in *.


(** Runs the next call of the transport, whichever it is. *)
Ltac step_call :=
  match goal with
  | |- context [write_reg ?c ?h0 ?r ?d ?l] =>
      let s := fresh "s" in
      let h' := fresh "h" in
      destruct (write_reg c h0 r d l) as [s h']; cbn [fst snd]
  | |- context [read_reg ?c ?h0 ?r ?d ?l] =>
      let s := fresh "s" in
      let d' := fresh "d" in
      let h' := fresh "h" in
      destruct (read_reg c h0 r d l) as [[s d'] h']; cbn [fst snd]
  end.

(** ** The call sequence of the operating-mode setter *)

Section ModeSetSequence.

Context {H : Type} {hdr : ilps28qsw_reg_h}.
Variable junk : nat -> Z.
Variable c : stmdev_ctx_t H.


End ModeSetSequence.

(** ** Accumulation of the statuses *)



Section ModeSetStatus.

Context {H : Type} {hdr : ilps28qsw_reg_h}.
Variable junk : nat -> Z.
Variable c : stmdev_ctx_t H.



End ModeSetStatus.

(** ** The status of a FIFO batch read *)

Section FifoBatch.

Context {H : Type} {hdr : ilps28qsw_reg_h} {fl : float_ops}
  {bld : c_build}.
Variable junk : nat -> Z.
Variable c : stmdev_ctx_t H.

Lemma fifo_data_get_loop_status (md : ilps28qsw_md_t) (n : nat) :
  forall (i : nat) (ret : Z) (fifo_data : list Z)
         (data : list ilps28qsw_fifo_data_t) (h : H),
    let r := fifo_data_get_loop (Some c) md n i ret fifo_data data h in
    length (calls r) = n /\
    Forall is_fifo_read (calls r) /\
    fst (result r) = match n with O => ret | S _ => last_status (calls r) end.
Proof.
  induction n as [|n IH]; intros i ret fifo_data data h.
  - cbn. repeat split. constructor.
  - cbn [fifo_data_get_loop]. driver_unfold. step_call.
    match goal with
    | |- context [fifo_data_get_loop _ _ _ ?i' ?ret' ?fd' ?data' ?h'] =>
        specialize (IH i' ret' fd' data' h');
        destruct (fifo_data_get_loop (Some c) md n i' ret' fd' data' h')
          as [[res h2] t2]
    end.
    cbn [fst snd] in *. destruct IH as [Hlen [Hall Hres]].
    repeat split.
    + cbn. rewrite Hlen. reflexivity.
    + constructor; [|assumption]. eexists. eexists. reflexivity.
    + rewrite Hres. destruct n as [|n].
      * destruct t2; cbn in Hlen; [reflexivity|discriminate Hlen].
      * destruct t2 as [|e t2]; cbn in Hlen; [discriminate Hlen|]. reflexivity.
Qed.

(** The calls of the loop are the answers of the transport. *)
Lemma fifo_data_get_loop_reads (md : ilps28qsw_md_t) (n : nat) :
  forall (i : nat) (ret : Z) (fifo_data : list Z)
         (data : list ilps28qsw_fifo_data_t) (h : H),
    let r := fifo_data_get_loop (Some c) md n i ret fifo_data data h in
    let answers :=
      transport_reads c ILPS28QSW_FIFO_DATA_OUT_PRESS_XL 3 n fifo_data h in
    calls r = fst answers /\ bus_after r = snd answers.
Proof.
  induction n as [|n IH]; intros i ret fifo_data data h.
  - cbn. split; reflexivity.
  - cbn [fifo_data_get_loop transport_reads]. driver_unfold. step_call.
    match goal with
    | |- context [fifo_data_get_loop _ _ _ ?i' ?ret' ?fd' ?data' ?h'] =>
        specialize (IH i' ret' fd' data' h');
        destruct (fifo_data_get_loop (Some c) md n i' ret' fd' data' h')
          as [[res h2] t2]
    end.
    cbn [fst snd] in *. destruct IH as [Hcalls Hbus].
    destruct (transport_reads c ILPS28QSW_FIFO_DATA_OUT_PRESS_XL 3 n
                (buffer_fit fifo_data d) h0) as [rest h3].
    cbn [fst snd] in *. subst t2 h2. split; reflexivity.
Qed.

(** C9.  The calls of [ilps28qsw_fifo_data_get] are the [samp] reads of the
    FIFO output register that the transport answers, one after the other,
    and nothing else; the bus is left as the last of them left it, and the
    status returned is the one that the transport gave to the last of them,
    whatever the statuses of the earlier reads were.  With [samp] equal to 0
    there is no call at all, the bus is untouched and 0 is returned. *)
Theorem fifo_data_get_returns_last_status (samp : Z) (md : ilps28qsw_md_t)
    (data : list ilps28qsw_fifo_data_t) (h : H) :
  let r := ilps28qsw_fifo_data_get junk (Some c) samp md data h in
  let answers :=
    transport_reads c ILPS28QSW_FIFO_DATA_OUT_PRESS_XL 3
      (Z.to_nat (uint8_t samp)) (auto_buffer junk 0 3) h in
  calls r = fst answers /\
  bus_after r = snd answers /\
  length (calls r) = Z.to_nat (uint8_t samp) /\
  Forall is_fifo_read (calls r) /\
  fst (result r) = last_status (fst answers) /\
  (uint8_t samp = 0 -> calls r = [] /\ bus_after r = h /\ fst (result r) = 0).
Proof.
  intros r answers. subst r answers. unfold ilps28qsw_fifo_data_get.
  pose proof (fifo_data_get_loop_status md (Z.to_nat (uint8_t samp)) 0%nat 0
                (auto_buffer junk 0 3) data h) as Hloop.
  pose proof (fifo_data_get_loop_reads md (Z.to_nat (uint8_t samp)) 0%nat 0
                (auto_buffer junk 0 3) data h) as Hreads.
  cbv zeta in Hloop, Hreads.
  destruct Hloop as [Hlen [Hall Hres]]. destruct Hreads as [Hcalls Hbus].
  assert (Hlast : fst (result (fifo_data_get_loop (Some c) md
                    (Z.to_nat (uint8_t samp)) 0 0 (auto_buffer junk 0 3) data h)) =
                  last_status (calls (fifo_data_get_loop (Some c) md
                    (Z.to_nat (uint8_t samp)) 0 0 (auto_buffer junk 0 3) data h))).
  { rewrite Hres. destruct (Z.to_nat (uint8_t samp)) eqn:En; [|reflexivity].
    destruct (calls _); cbn in Hlen; [reflexivity|discriminate Hlen]. }
  split; [assumption|]. split; [assumption|]. split; [assumption|].
  split; [assumption|]. split; [rewrite <- Hcalls; assumption|].
  intros Hzero. rewrite Hlast, Hbus. clear Hlast Hres Hall Hcalls Hbus.
  rewrite Hzero in *. change (Z.to_nat 0) with 0%nat in *.
  cbn [transport_reads snd].
  destruct (calls _); cbn in Hlen; [repeat split; reflexivity|discriminate Hlen].
Qed.

End FifoBatch.

(** ** Reconstruction of the 24-bit output code *)

Lemma testbit_top (v n : Z) :
  0 <= n -> 0 <= v < 2 ^ (n + 1) -> Z.testbit v n = (2 ^ n <=? v).
Proof.
  intros Hn Hv. assert (Hp : 0 < 2 ^ n) by (apply Z.pow_pos_nonneg; lia).
  rewrite Z.pow_add_r, Z.pow_1_r in Hv by lia.
  destruct (Z.leb_spec (2 ^ n) v) as [Hge|Hlt].
  - apply Z.testbit_true; [assumption|].
    assert (v / 2 ^ n = 1) as ->; [|reflexivity].
    symmetry. apply Z.div_unique with (r := v - 2 ^ n); lia.
  - apply Z.testbit_false; [assumption|].
    rewrite Z.div_small by lia. reflexivity.
Qed.

Lemma code24_range b0 b1 b2 :
  0 <= b0 < 256 -> 0 <= b1 < 256 -> 0 <= b2 < 256 ->
  0 <= code24 b0 b1 b2 < 16777216.
Proof. unfold code24. lia. Qed.


Lemma sign_extend24_range v :
  0 <= v < 16777216 -> -8388608 <= sign_extend24 v < 8388608.
Proof.
  intros Hv. unfold sign_extend24.
  rewrite (testbit_top v 23) by (cbn; lia). change (2 ^ 23) with 8388608.
  destruct (Z.leb_spec 8388608 v); lia.
Qed.

Lemma int32_of_shifted_code v :
  0 <= v < 16777216 ->
  int32_t (uint32_t (v * 256)) = sign_extend24 v * 256.
Proof.
  intros Hv. unfold uint32_t. rewrite Z.mod_small by lia.
  unfold sign_extend24, int32_t.
  rewrite (testbit_top v 23) by (cbn; lia). change (2 ^ 23) with 8388608.
  destruct (Z.leb_spec 8388608 v).
  - replace (v * 256 + 2147483648)
      with ((v - 16777216) * 256 + 2147483648 + 1 * 4294967296) by lia.
    rewrite Z.mod_add by lia. rewrite Z.mod_small; lia.
  - rewrite Z.mod_small; lia.
Qed.

(** The four assignments to [raw] of the data getters, in an int32. *)
Lemma raw_int32 b0 b1 b2 :
  0 <= b0 < 256 -> 0 <= b1 < 256 -> 0 <= b2 < 256 ->
  int32_t (int32_t (int32_t (int32_t b2 * 256 + b1) * 256 + b0) * 256) =
  int32_t (uint32_t (code24 b0 b1 b2 * 256)).
Proof.
  intros H0 H1 H2.
  rewrite (int32_t_small b2) by lia.
  rewrite (int32_t_small (b2 * 256 + b1)) by lia.
  rewrite (int32_t_small ((b2 * 256 + b1) * 256 + b0)) by lia.
  unfold uint32_t, code24. rewrite Z.mod_small by lia.
  f_equal. lia.
Qed.



Lemma land_1_testbit b : Z.land b 1 = Z.b2z (Z.testbit b 0).
Proof.
  change 1 with (Z.ones 1). rewrite Z.land_ones by lia.
  rewrite Z.bit0_mod. reflexivity.
Qed.


Lemma length_five {A} (l : list A) :
  length l = 5%nat -> exists a b c d e, l = [a; b; c; d; e].
Proof.
  destruct l as [|a [|b [|c [|d [|e [|f l]]]]]]; cbn; intros Hl; try discriminate.
  exists a, b, c, d, e. reflexivity.
Qed.

(** The first three assignments to [raw]: the 24-bit code. *)
Lemma code_int32 b0 b1 b2 :
  0 <= b0 < 256 -> 0 <= b1 < 256 -> 0 <= b2 < 256 ->
  int32_t (int32_t (int32_t b2 * 256 + b1) * 256 + b0) = code24 b0 b1 b2.
Proof.
  intros H0 H1 H2.
  rewrite (int32_t_small b2) by lia.
  rewrite (int32_t_small (b2 * 256 + b1)) by lia.
  rewrite (int32_t_small ((b2 * 256 + b1) * 256 + b0)) by lia.
  unfold code24. lia.
Qed.

(** Bit 7 of the highest byte tells whether the product by 256 is
    representable. *)
Lemma code24_top_clear b0 b1 b2 :
  0 <= b0 < 256 -> 0 <= b1 < 256 -> 0 <= b2 < 256 ->
  (Z.testbit b2 7 = false <-> code24 b0 b1 b2 < 8388608).
Proof.
  intros H0 H1 H2. rewrite (testbit_top b2 7) by (cbn; lia).
  change (2 ^ 7) with 128. unfold code24.
  destruct (Z.leb_spec 128 b2); split; intros; try reflexivity;
    try discriminate; lia.
Qed.

Lemma quot_of_product_small {bld : c_build} (x : Z) :
  0 <= x < 8388608 -> quot_of_product x 256 = x.
Proof.
  intros Hx. unfold quot_of_product, int_representable.
  destruct (Z.leb_spec (-2147483648) (x * 256)); [|lia].
  destruct (Z.ltb_spec (x * 256) 2147483648); [|lia].
  cbn [andb]. apply Z.quot_mul. lia.
Qed.

Lemma quot_of_product_overflow {bld : c_build} (x : Z) :
  8388608 <= x -> quot_of_product x 256 = overflowed_quot x 256.
Proof.
  intros Hx. unfold quot_of_product, int_representable.
  destruct (Z.ltb_spec (x * 256) 2147483648); [lia|].
  rewrite andb_false_r. reflexivity.
Qed.

(** The transport always answers, and the buffer keeps its size. *)
Lemma transport_read_answers {H : Type} (c : stmdev_ctx_t H) (h : H)
    (reg : Z) (buf : list Z) (len : Z) :
  exists st bytes h',
    transport_read c h reg buf len st bytes h' /\
    length bytes = length buf.
Proof.
  destruct (read_reg c h reg buf len) as [[st data] h'] eqn:Hrd.
  exists st, (buffer_fit buf data), h'. split.
  - exists data. split; [assumption|reflexivity].
  - apply buffer_fit_length.
Qed.

Lemma transport_read_bytes {H : Type} (c : stmdev_ctx_t H) (h h' : H)
    (reg : Z) (buf : list Z) (len st : Z) (bytes : list Z) :
  transport_read c h reg buf len st bytes h' ->
  Forall (fun b => 0 <= b < 256) bytes.
Proof. intros [data [_ <-]]. apply buffer_fit_bytes. Qed.

Section DataOutput.

Context {H : Type} {hdr : ilps28qsw_reg_h} {fl : float_ops}
  {bld : c_build}.
Variable junk : nat -> Z.
Variable c : stmdev_ctx_t H.

(** What [ilps28qsw_data_get] makes of the five bytes that the transport
    delivers. *)
Lemma data_get_answer (md : ilps28qsw_md_t) (h h' : H)
    (st b0 b1 b2 b3 b4 : Z) :
  transport_read c h ILPS28QSW_PRESS_OUT_XL (auto_buffer junk 0 5) 5 st
    [b0; b1; b2; b3; b4] h' ->
  (0 <= b0 < 256 /\ 0 <= b1 < 256 /\ 0 <= b2 < 256) /\
  calls (ilps28qsw_data_get junk (Some c) md h) =
    [BusRead ILPS28QSW_PRESS_OUT_XL 5 [b0; b1; b2; b3; b4] (int32_t st)] /\
  bus_after (ilps28qsw_data_get junk (Some c) md h) = h' /\
  fst (result (ilps28qsw_data_get junk (Some c) md h)) = int32_t st /\
  let d := snd (result (ilps28qsw_data_get junk (Some c) md h)) in
  let raw := int32_t (uint32_t (code24 b0 b1 b2 * 256)) in
  pressure_raw d = raw /\
  (pressure_hpa d, ah_qvar_lsb d) =
    (if interleaved_mode md =? 1 then
       if Z.land b0 1 =? 0 then
         (switch (fs md)
            [(ILPS28QSW_1260hPa, ilps28qsw_from_fs1260_to_hPa raw);
             (ILPS28QSW_4060hPa, ilps28qsw_from_fs4060_to_hPa raw)]
            (float_lit 0), 0)
       else (float_lit 0, int32_t (quot_of_product (code24 b0 b1 b2) 256))
     else
       (switch (fs md)
          [(ILPS28QSW_1260hPa, ilps28qsw_from_fs1260_to_hPa raw);
           (ILPS28QSW_4060hPa, ilps28qsw_from_fs4060_to_hPa raw)]
          (float_lit 0), 0)).
Proof.
  intros Hread.
  pose proof (transport_read_bytes _ _ _ _ _ _ _ _ Hread) as Hbytes.
  destruct Hread as [data [Hrd Hfit]].
  inversion Hbytes as [|? ? Hb0 Hr0]; subst.
  inversion Hr0 as [|? ? Hb1 Hr1]; subst.
  inversion Hr1 as [|? ? Hb2 Hr2]; subst.
  split; [repeat split; lia|].
  unfold ilps28qsw_data_get. driver_unfold. rewrite Hrd. cbn [fst snd].
  rewrite Hfit.
  split; [reflexivity|]. split; [reflexivity|]. split; [reflexivity|].
  cbn [nth snd fst pressure_raw pressure_hpa ah_qvar_lsb].
  rewrite raw_int32, code_int32 by assumption.
  split; [reflexivity|].
  destruct (interleaved_mode md =? 1); [destruct (Z.land b0 1 =? 0)|]; reflexivity.
Qed.

(** The same for whatever the transport delivers. *)
Lemma data_get_run (md : ilps28qsw_md_t) (h : H) :
  exists b0 b1 b2 b3 b4 st,
    (0 <= b0 < 256 /\ 0 <= b1 < 256 /\ 0 <= b2 < 256) /\
    calls (ilps28qsw_data_get junk (Some c) md h) =
      [BusRead ILPS28QSW_PRESS_OUT_XL 5 [b0; b1; b2; b3; b4] st] /\
    let d := snd (result (ilps28qsw_data_get junk (Some c) md h)) in
    let raw := int32_t (uint32_t (code24 b0 b1 b2 * 256)) in
    pressure_raw d = raw /\
    (pressure_hpa d, ah_qvar_lsb d) =
      (if interleaved_mode md =? 1 then
         if Z.land b0 1 =? 0 then
           (switch (fs md)
              [(ILPS28QSW_1260hPa, ilps28qsw_from_fs1260_to_hPa raw);
               (ILPS28QSW_4060hPa, ilps28qsw_from_fs4060_to_hPa raw)]
              (float_lit 0), 0)
         else (float_lit 0, int32_t (quot_of_product (code24 b0 b1 b2) 256))
       else
         (switch (fs md)
            [(ILPS28QSW_1260hPa, ilps28qsw_from_fs1260_to_hPa raw);
             (ILPS28QSW_4060hPa, ilps28qsw_from_fs4060_to_hPa raw)]
            (float_lit 0), 0)).
Proof.
  destruct (transport_read_answers c h ILPS28QSW_PRESS_OUT_XL
              (auto_buffer junk 0 5) 5) as [st [bytes [h' [Hread Hlen]]]].
  rewrite auto_buffer_length in Hlen.
  destruct (length_five bytes Hlen) as [b0 [b1 [b2 [b3 [b4 ->]]]]].
  destruct (data_get_answer md h h' st b0 b1 b2 b3 b4 Hread)
    as [Hb [Hcalls [_ [_ Hout]]]].
  exists b0, b1, b2, b3, b4, (int32_t st).
  split; [assumption|]. split; assumption.
Qed.


(** C4.  With [interleaved_mode] equal to 1, bit 0 of the lowest byte that
    the transport delivers selects the reading.  Bit 0 clear: [ah_qvar.lsb]
    is 0 and the pressure is converted by the formula of the full scale.
    Bit 0 set: the pressure is 0.0 and the raw value is not 0; when bit 7 of
    the highest byte is clear, [ah_qvar.lsb] is the raw value divided by
    256, which is the 24-bit code and is not 0; when it is set, the product
    by 256 overflows and [ah_qvar.lsb] is what the build yields.  One of the
    two outputs is always the zero one. *)
Theorem interleaved_sample_demux (md : ilps28qsw_md_t) (h h' : H)
    (st b0 b1 b2 b3 b4 : Z) :
  interleaved_mode md = 1 ->
  transport_read c h ILPS28QSW_PRESS_OUT_XL (auto_buffer junk 0 5) 5 st
    [b0; b1; b2; b3; b4] h' ->
  let r := ilps28qsw_data_get junk (Some c) md h in
  let d := snd (result r) in
  calls r =
    [BusRead ILPS28QSW_PRESS_OUT_XL 5 [b0; b1; b2; b3; b4] (int32_t st)] /\
  (Z.testbit b0 0 = true ->
     pressure_hpa d = float_lit 0 /\
     pressure_raw d <> 0 /\
     (Z.testbit b2 7 = false ->
        ah_qvar_lsb d = Z.quot (pressure_raw d) 256 /\
        ah_qvar_lsb d = code24 b0 b1 b2 /\
        ah_qvar_lsb d <> 0) /\
     (Z.testbit b2 7 = true ->
        ah_qvar_lsb d = int32_t (overflowed_quot (code24 b0 b1 b2) 256))) /\
  (Z.testbit b0 0 = false ->
     ah_qvar_lsb d = 0 /\
     pressure_hpa d =
       switch (fs md)
         [(ILPS28QSW_1260hPa, ilps28qsw_from_fs1260_to_hPa (pressure_raw d));
          (ILPS28QSW_4060hPa, ilps28qsw_from_fs4060_to_hPa (pressure_raw d))]
         (float_lit 0)) /\
  (pressure_hpa d = float_lit 0 \/ ah_qvar_lsb d = 0).
Proof.
  intros Hmode Hread.
  destruct (data_get_answer md h h' st b0 b1 b2 b3 b4 Hread)
    as [[Hb0 [Hb1 Hb2]] [Hcalls [_ [_ [Hraw Hout]]]]].
  cbv zeta in *. split; [assumption|].
  rewrite Hmode in Hout. cbn [Z.eqb Pos.eqb] in Hout.
  rewrite land_1_testbit in Hout.
  pose proof (code24_range b0 b1 b2 Hb0 Hb1 Hb2) as Hc.
  pose proof (sign_extend24_range _ Hc) as Hs.
  pose proof (code24_top_clear b0 b1 b2 Hb0 Hb1 Hb2) as Htop.
  rewrite int32_of_shifted_code in Hraw, Hout by assumption.
  rewrite Hraw.
  destruct (Z.testbit b0 0) eqn:Hbit; cbn [Z.b2z Z.eqb] in Hout;
    injection Hout as Hhpa Hlsb.
  - assert (Hodd : code24 b0 b1 b2 <> 0).
    { intros Hz. unfold code24 in Hz.
      assert (b0 = 0) by lia. subst b0. discriminate Hbit. }
    assert (Hnz : sign_extend24 (code24 b0 b1 b2) <> 0).
    { unfold sign_extend24. destruct (Z.testbit (code24 b0 b1 b2) 23); lia. }
    split; [|split; [intros Hf; discriminate Hf|left; assumption]].
    intros _. split; [assumption|]. split; [lia|]. split.
    + intros Hclear. apply Htop in Hclear.
      rewrite quot_of_product_small in Hlsb by lia.
      rewrite int32_t_small in Hlsb by lia.
      assert (Hse : sign_extend24 (code24 b0 b1 b2) = code24 b0 b1 b2).
      { unfold sign_extend24.
        rewrite (testbit_top (code24 b0 b1 b2) 23) by (cbn; lia).
        change (2 ^ 23) with 8388608.
        destruct (Z.leb_spec 8388608 (code24 b0 b1 b2)); [lia|reflexivity]. }
      rewrite Hse, Z.quot_mul by lia. rewrite Hlsb.
      repeat split; first [reflexivity | assumption].
    + intros Hset.
      assert (Hbig : 8388608 <= code24 b0 b1 b2).
      { destruct (Z.lt_ge_cases (code24 b0 b1 b2) 8388608) as [Hlt|Hge];
          [|assumption].
        apply Htop in Hlt. rewrite Hlt in Hset. discriminate Hset. }
      rewrite quot_of_product_overflow in Hlsb by assumption. assumption.
  - split; [intros Hf; discriminate Hf|].
    split; [intros _; split; assumption|right; assumption].
Qed.

End DataOutput.

(** ** Decoding of the registers by the getters *)

Lemma switch_decodes (x : Z) (enum : list Z) (default : Z) :
  decodes_to enum default x (switch x (map (fun e => (e, e)) enum) default).
Proof.
  unfold decodes_to. induction enum as [|e enum [IHin IHout]]; cbn.
  - split; [contradiction|reflexivity].
  - destruct (Z.eqb_spec x e) as [->|Hne].
    + split; [reflexivity|]. intros Hout. exfalso. apply Hout. left. reflexivity.
    + split.
      * intros [He|Hin]; [congruence|]. apply IHin. assumption.
      * intros Hout. apply IHout. intros Hin. apply Hout. right. assumption.
Qed.

Lemma length_two {A} (l : list A) : length l = 2%nat -> exists a b, l = [a; b].
Proof.
  destruct l as [|a [|b [|c l]]]; cbn; intros Hl; try discriminate.
  exists a, b. reflexivity.
Qed.

Section Getters.

Context {H : Type} {hdr : ilps28qsw_reg_h}.
Variable junk : nat -> Z.
Variable c : stmdev_ctx_t H.


Lemma stat_flag_lnot_bit0 (x : Z) :
  0 < stat_flag_bits ->
  Z.testbit (stat_flag (Z.lnot x)) 0 = negb (Z.testbit x 0).
Proof.
  intros Hw. unfold stat_flag.
  rewrite Z.land_spec, Z.lnot_spec, testbit_ones by lia.
  destruct (Z.ltb_spec 0 stat_flag_bits); [|lia].
  cbn. apply andb_true_r.
Qed.

(** C8.  In the status that [ilps28qsw_status_get] reports, bit 0 of
    [end_meas] is the negation of the one-shot bit of the control register
    that the transport delivers to the first read, whatever the status of
    that read.  When the first three reads succeed, the four registers are
    read from the transport in order, the status of the fourth read is
    returned, and bit 0 of [ref_done] is the negation of the auto-zero bit
    of the interrupt configuration that the transport delivers to the fourth
    read. *)
Theorem status_get_inverts_busy_flags (h : H) :
  0 < stat_flag_bits ->
  (forall s1 ctrl_reg2 h1,
     transport_read c h ILPS28QSW_CTRL_REG2 (auto_buffer junk 2 1) 1 s1
       [ctrl_reg2] h1 ->
     let r := ilps28qsw_status_get junk (Some c) h in
     hd_error (calls r) =
       Some (BusRead ILPS28QSW_CTRL_REG2 1 [ctrl_reg2] (int32_t s1)) /\
     Z.testbit (end_meas (snd (result r))) 0 =
       negb (Z.testbit (bf_get ctrl_reg2_oneshot ctrl_reg2) 0)) /\
  (forall ctrl_reg2 int_source status interrupt_cfg s4 h1 h2 h3 h4,
     transport_read c h ILPS28QSW_CTRL_REG2 (auto_buffer junk 2 1) 1 0
       [ctrl_reg2] h1 ->
     transport_read c h1 ILPS28QSW_INT_SOURCE (auto_buffer junk 1 1) 1 0
       [int_source] h2 ->
     transport_read c h2 ILPS28QSW_STATUS (auto_buffer junk 3 1) 1 0
       [status] h3 ->
     transport_read c h3 ILPS28QSW_INTERRUPT_CFG (auto_buffer junk 0 1) 1 s4
       [interrupt_cfg] h4 ->
     let r := ilps28qsw_status_get junk (Some c) h in
     calls r =
       [BusRead ILPS28QSW_CTRL_REG2 1 [ctrl_reg2] 0;
        BusRead ILPS28QSW_INT_SOURCE 1 [int_source] 0;
        BusRead ILPS28QSW_STATUS 1 [status] 0;
        BusRead ILPS28QSW_INTERRUPT_CFG 1 [interrupt_cfg] (int32_t s4)] /\
     bus_after r = h4 /\
     fst (result r) = int32_t s4 /\
     Z.testbit (end_meas (snd (result r))) 0 =
       negb (Z.testbit (bf_get ctrl_reg2_oneshot ctrl_reg2) 0) /\
     Z.testbit (ref_done (snd (result r))) 0 =
       negb (Z.testbit (bf_get interrupt_cfg_autozero interrupt_cfg) 0)).
Proof.
  intros Hw. split.
  - intros s1 c2 h1 [d1 [R1 F1]]. cbv zeta.
    unfold ilps28qsw_status_get. driver_unfold. rewrite R1. cbn [fst snd].
    rewrite F1.
    destruct (int32_t s1 =? 0) eqn:E; cbn [fst snd];
      [|repeat (rewrite E; cbn [fst snd]); cbn [nth end_meas app hd_error];
        split; [reflexivity|apply stat_flag_lnot_bit0; assumption]].
    step_call.
    destruct (int32_t s =? 0) eqn:E0; cbn [fst snd];
      [|repeat (rewrite E0; cbn [fst snd]); cbn [nth end_meas app hd_error];
        split; [reflexivity|apply stat_flag_lnot_bit0; assumption]].
    step_call.
    destruct (int32_t s0 =? 0) eqn:E1; cbn [fst snd];
      [|cbn [nth end_meas app hd_error];
        split; [reflexivity|apply stat_flag_lnot_bit0; assumption]].
    step_call. cbn [nth end_meas app hd_error].
    split; [reflexivity|apply stat_flag_lnot_bit0; assumption].
  - intros c2 isrc sr ic s4 h1 h2 h3 h4
      [d1 [R1 F1]] [d2 [R2 F2]] [d3 [R3 F3]] [d4 [R4 F4]]. cbv zeta.
    unfold ilps28qsw_status_get. driver_unfold.
    rewrite R1. cbn [fst snd]. rewrite F1.
    change (int32_t 0) with 0. cbn [Z.eqb].
    rewrite R2. cbn [fst snd]. rewrite F2.
    change (int32_t 0) with 0. cbn [Z.eqb].
    rewrite R3. cbn [fst snd]. rewrite F3.
    change (int32_t 0) with 0. cbn [Z.eqb].
    rewrite R4. cbn [fst snd]. rewrite F4.
    cbn [nth end_meas ref_done app].
    repeat (split; [reflexivity|]).
    split; apply stat_flag_lnot_bit0; assumption.
Qed.

End Getters.

(** ** The FIFO-mode setter *)

Lemma bf_wf_bounds f : bf_wf f = true -> 0 <= bf_lsb f /\ 0 < bf_width f.
Proof.
  unfold bf_wf. rewrite !andb_true_iff, !Z.leb_le, Z.ltb_lt. tauto.
Qed.

Section FifoModeSet.

Context {H : Type} {hdr : ilps28qsw_reg_h}.
Variable junk : nat -> Z.
Variable c : stmdev_ctx_t H.

Lemma fifo_mode_set_run (val : ilps28qsw_fifo_md_t) (h : H) :
  exists fifo_ctrl fifo_wtm st,
    (st <> 0 ->
     calls (ilps28qsw_fifo_mode_set junk (Some c) val h) =
       [BusRead ILPS28QSW_FIFO_CTRL 2 [fifo_ctrl; fifo_wtm] st]) /\
    (st = 0 ->
     exists s,
       calls (ilps28qsw_fifo_mode_set junk (Some c) val h) =
         [BusRead ILPS28QSW_FIFO_CTRL 2 [fifo_ctrl; fifo_wtm] 0;
          BusWrite ILPS28QSW_FIFO_CTRL 2
            [fifo_ctrl_written val fifo_ctrl; fifo_wtm_written val fifo_wtm] s]).
Proof.
  unfold ilps28qsw_fifo_mode_set. driver_unfold. step_call.
  destruct (length_two (buffer_fit (auto_buffer junk 0 2) d)) as [f [w Hbuf]];
    [rewrite buffer_fit_length; apply auto_buffer_length|].
  rewrite Hbuf. exists f, w, (int32_t s).
  destruct (Z.eqb_spec (int32_t s) 0) as [Hst|Hst]; cbn [fst snd nth].
  - split; [intros Hne; contradiction|]. intros _. step_call.
    exists (int32_t s0). rewrite Hst. unfold fifo_ctrl_written, fifo_wtm_written.
    destruct (watermark val =? 0); reflexivity.
  - split; [reflexivity|]. intros Heq. contradiction.
Qed.


(** C10.  [ilps28qsw_fifo_mode_set] reads the FIFO control and watermark
    registers and writes them back with only the members f_mode, trig_modes,
    stop_on_wtm and wtm changed: every bit of the FIFO control byte outside
    the first three, and in particular the FIFO interleave enable, and every
    bit of the watermark byte outside wtm, is written with the value read. *)
Theorem fifo_mode_set_preserves_other_bits (val : ilps28qsw_fifo_md_t) (h : H) :
  bf_wf fifo_ctrl_f_mode = true ->
  bf_wf fifo_ctrl_trig_modes = true ->
  bf_wf fifo_ctrl_stop_on_wtm = true ->
  bf_wf fifo_ctrl_ah_qvar_p_fifo_en = true ->
  bf_wf fifo_wtm_wtm = true ->
  bf_disjoint fifo_ctrl_f_mode fifo_ctrl_ah_qvar_p_fifo_en = true ->
  bf_disjoint fifo_ctrl_trig_modes fifo_ctrl_ah_qvar_p_fifo_en = true ->
  bf_disjoint fifo_ctrl_stop_on_wtm fifo_ctrl_ah_qvar_p_fifo_en = true ->
  exists fifo_ctrl fifo_wtm st,
    (st <> 0 ->
     calls (ilps28qsw_fifo_mode_set junk (Some c) val h) =
       [BusRead ILPS28QSW_FIFO_CTRL 2 [fifo_ctrl; fifo_wtm] st]) /\
    (st = 0 ->
     exists fifo_ctrl' fifo_wtm' s,
       calls (ilps28qsw_fifo_mode_set junk (Some c) val h) =
         [BusRead ILPS28QSW_FIFO_CTRL 2 [fifo_ctrl; fifo_wtm] 0;
          BusWrite ILPS28QSW_FIFO_CTRL 2 [fifo_ctrl'; fifo_wtm'] s] /\
       (forall i, 0 <= i ->
          bf_inside fifo_ctrl_f_mode i = false ->
          bf_inside fifo_ctrl_trig_modes i = false ->
          bf_inside fifo_ctrl_stop_on_wtm i = false ->
          Z.testbit fifo_ctrl' i = Z.testbit fifo_ctrl i) /\
       bf_get fifo_ctrl_ah_qvar_p_fifo_en fifo_ctrl' =
         bf_get fifo_ctrl_ah_qvar_p_fifo_en fifo_ctrl /\
       (forall i, 0 <= i ->
          bf_inside fifo_wtm_wtm i = false ->
          Z.testbit fifo_wtm' i = Z.testbit fifo_wtm i)).
Proof.
  intros Hf Ht Hs He Hw Dfe Dte Dse.
  apply bf_wf_bounds in Hf, Ht, Hs, He, Hw.
  destruct (fifo_mode_set_run val h) as [f [w [st [Hfail Hok]]]].
  exists f, w, st. split; [assumption|].
  intros Hst. destruct (Hok Hst) as [s Hcalls].
  exists (fifo_ctrl_written val f), (fifo_wtm_written val w), s.
  split; [assumption|]. unfold fifo_ctrl_written, fifo_wtm_written.
  split; [|split].
  - intros i Hi Hif Hit His.
    rewrite !bf_set_testbit by lia. rewrite His, Hit, Hif. reflexivity.
  - rewrite !bf_get_set_other by (assumption || lia). reflexivity.
  - intros i Hi Hiw. rewrite bf_set_testbit by lia. rewrite Hiw. reflexivity.
Qed.

End FifoModeSet.

(** ** The driver on the device that stores what is written *)

Lemma device_read junk k n reg len r :
  Z.to_nat len = n ->
  ilps28qsw_read_reg (Some double_ctx) reg (auto_buffer junk k n) len (device r) =
  ((0, device_bytes r reg n), device r,
   [BusRead reg len (device_bytes r reg n) 0]).
Proof.
  intros Hn.
  unfold ilps28qsw_read_reg, device, double_ctx, read_reg.
  cbn [script regs hd tl]. rewrite Hn.
  assert (Hfit : buffer_fit (auto_buffer junk k n) (load r reg n) =
                 device_bytes r reg n).
  { unfold buffer_fit, device_bytes. f_equal. rewrite auto_buffer_length.
    assert (Hl : length (load r reg n) = n)
      by (unfold load; rewrite length_map, length_seq; reflexivity).
    rewrite firstn_app, Hl, Nat.sub_diag. cbn [firstn]. rewrite app_nil_r.
    rewrite <- Hl at 1. apply firstn_all. }
  rewrite Hfit. reflexivity.
Qed.

Lemma device_write reg data len r :
  length data = Z.to_nat len ->
  ilps28qsw_write_reg (Some double_ctx) reg data len (device r) =
  (0, device (store r reg data), [BusWrite reg len data 0]).
Proof.
  intros Hl. unfold ilps28qsw_write_reg, device, double_ctx, write_reg.
  cbn [script regs hd tl]. rewrite <- Hl, firstn_all. reflexivity.
Qed.

Lemma store_below (data : list Z) :
  forall r reg a, a < reg -> store r reg data a = r a.
Proof.
  induction data as [|b data IH]; intros r reg a Ha; cbn [store]; [reflexivity|].
  rewrite IH by lia. destruct (Z.eqb_spec a reg); [lia|reflexivity].
Qed.

Lemma load_shift r reg n : load r reg (S n) = r reg :: load r (reg + 1) n.
Proof.
  unfold load. cbn [seq map]. rewrite Z.add_0_r. f_equal.
  rewrite <- seq_shift, map_map. apply map_ext. intros i. f_equal. lia.
Qed.

Lemma load_store (data : list Z) :
  forall r reg, load (store r reg data) reg (length data) = map uint8_t data.
Proof.
  induction data as [|b data IH]; intros r reg; [reflexivity|].
  cbn [length map]. rewrite load_shift. cbn [store]. f_equal.
  - rewrite store_below by lia. rewrite Z.eqb_refl. reflexivity.
  - apply IH.
Qed.

Lemma uint8_t_idem x : uint8_t (uint8_t x) = uint8_t x.
Proof. apply uint8_t_small, uint8_t_range. Qed.

Lemma device_bytes_store (data : list Z) r reg n :
  length data = n ->
  device_bytes (store r reg data) reg n = map uint8_t data.
Proof.
  intros <-. unfold device_bytes. rewrite load_store, map_map.
  apply map_ext. intros b. apply uint8_t_idem.
Qed.

Lemma nth_device_bytes_range r reg n k :
  0 <= nth k (device_bytes r reg n) 0 < 256.
Proof.
  destruct (nth_in_or_default k (device_bytes r reg n) 0) as [Hin|Heq];
    [|rewrite Heq; lia].
  unfold device_bytes in Hin at 2. apply in_map_iff in Hin.
  destruct Hin as [b [Hb _]]. rewrite <- Hb. apply uint8_t_range.
Qed.

(** Runs the next call of the driver on the device. *)
Ltac device_step :=
  first [rewrite device_write by reflexivity
        |rewrite device_read by reflexivity];
  cbn [fst snd].

Ltac bf_side := first [reflexivity | cbn; lia].

Ltac byte_range :=
  repeat (apply bf_set_byte; [reflexivity|]);
  first [apply nth_device_bytes_range | apply uint8_t_range].

(** Reads the members back from the bytes that were written. *)
Ltac bf_simpl :=
  repeat first
    [ match goal with
      | |- context [uint8_t (bf_set ?f ?s ?v)] =>
          rewrite (uint8_t_small (bf_set f s v)) by byte_range
      end
    | rewrite bf_get_set_same by bf_side
    | rewrite bf_get_set_other by bf_side ].

(** Settles a member whose value is one of a list of enumerators. *)
Ltac enum_cases Hin :=
  repeat (destruct Hin as [Hin|Hin];
          [try (rewrite <- Hin; vm_compute; reflexivity)|]);
  try (destruct Hin).

Section OnDevice.

#[local] Existing Instance device_header.
Variable junk : nat -> Z.

Lemma mode_round_trip (r : Z -> Z) (x val0 : ilps28qsw_md_t) :
  md_domain x -> lpf x <> ILPS28QSW_LPF_ODR_DIV_9 ->
  let s := ilps28qsw_mode_set junk (Some double_ctx) x (device r) in
  result s = 0 /\
  result (ilps28qsw_mode_get junk (Some double_ctx) val0 (bus_after s)) = (0, x).
Proof.
  intros [Hfs [Hodr [Havg [Hlpf Him]]]] Hno9 s. subst s.
  destruct x as [xfs xodr xavg xlpf xim].
  cbn [fs odr avg lpf interleaved_mode] in *.
  unfold ilps28qsw_mode_set, ilps28qsw_mode_get.
  unfold io_bind, io_ret, result, calls, bus_after, bytecpy.
  cbn [fs odr avg lpf interleaved_mode].
  device_step. change (0 =? 0) with true. cbv iota.
  destruct (bf_get ctrl_reg1_odr
              (nth 0 (device_bytes r ILPS28QSW_CTRL_REG1 3) 0) =? 0) eqn:Eodr;
    destruct (bf_get ctrl_reg3_ah_qvar_en
                (nth 2 (device_bytes r ILPS28QSW_CTRL_REG1 3) 0) =? 0) eqn:Eqv;
    cbn [negb fst snd]; repeat device_step; rewrite ?Eodr, ?Eqv;
    cbn [negb Z.eqb]; (split; [reflexivity|]);
    rewrite device_bytes_store by reflexivity; cbn [map nth fst snd];
    change (int32_t 0 =? 0) with true; cbv iota;
    cbn [fst snd fs odr avg lpf interleaved_mode];
    bf_simpl; f_equal; f_equal.
  all: try (enum_cases Hfs; fail).
  all: try (enum_cases Hodr; fail).
  all: try (enum_cases Havg; fail).
  all: try (enum_cases Him; fail).
  all: destruct Hlpf as [Hlpf|[Hlpf|[Hlpf|[]]]];
    [rewrite <- Hlpf; vm_compute; reflexivity
    |rewrite <- Hlpf; vm_compute; reflexivity
    |exfalso; apply Hno9; symmetry; exact Hlpf].
Qed.

Lemma fifo_mode_round_trip (r : Z -> Z) (x : ilps28qsw_fifo_md_t) :
  fifo_md_domain x ->
  let s := ilps28qsw_fifo_mode_set junk (Some double_ctx) x (device r) in
  result s = 0 /\
  result (ilps28qsw_fifo_mode_get junk (Some double_ctx) (bus_after s)) = (0, x).
Proof.
  intros [Hop Hwm] s. subst s.
  destruct x as [xop xwm]. cbn [operation watermark] in *.
  unfold ilps28qsw_fifo_mode_set, ilps28qsw_fifo_mode_get.
  unfold io_bind, io_ret, result, calls, bus_after, bytecpy.
  device_step. change (0 =? 0) with true. cbv iota. cbn [operation watermark].
  destruct (xwm =? 0) eqn:Ewm; cbn [negb];
    repeat device_step; (split; [reflexivity|]);
    rewrite device_bytes_store by reflexivity;
    cbn [map nth fst snd operation watermark];
    bf_simpl; f_equal; f_equal.
  all: try (enum_cases Hop; fail).
  all: unfold fifo_md_watermark; cbn [bf_width fifo_wtm_wtm device_header];
    rewrite !Z.land_ones by lia; change (2 ^ 7) with 128;
    rewrite !(Z.mod_small xwm 128) by lia; reflexivity.
Qed.

Lemma int_on_threshold_round_trip (r : Z -> Z) (x : ilps28qsw_int_th_md_t) :
  int_th_md_domain x -> threshold x < 32768 ->
  let s := ilps28qsw_int_on_threshold_mode_set junk (Some double_ctx) x (device r) in
  result s = 0 /\
  result (ilps28qsw_int_on_threshold_mode_get junk (Some double_ctx) (bus_after s))
    = (0, x).
Proof.
  intros [Hth [Hov Hun]] H15 s. subst s.
  destruct x as [xth xov xun]. cbn [threshold over_th under_th] in *.
  unfold ilps28qsw_int_on_threshold_mode_set, ilps28qsw_int_on_threshold_mode_get.
  unfold io_bind, io_ret, result, calls, bus_after, bytecpy.
  device_step. change (0 =? 0) with true. cbv iota.
  cbn [threshold over_th under_th].
  repeat device_step. (split; [reflexivity|]).
  rewrite device_bytes_store by reflexivity.
  cbn [map nth fst snd threshold over_th under_th].
  bf_simpl. f_equal. f_equal.
  - cbn [bf_width ths_p_h_ths ths_p_l_ths device_header].
    rewrite !Z.land_ones by lia. unfold uint8_t, uint16_t, uint32_t.
    change (2 ^ 7) with 128. change (2 ^ 8) with 256.
    assert (Hq : 0 <= xth / 256 < 128).
    { split; [apply Z.div_pos; lia|apply Z.div_lt_upper_bound; lia]. }
    pose proof (Z.div_mod xth 256 ltac:(lia)) as Hdm.
    pose proof (Z.mod_pos_bound xth 256 ltac:(lia)) as Hm.
    rewrite (Z.mod_small (xth / 256) 256) by lia.
    rewrite (Z.mod_small (xth / 256) 128) by lia.
    rewrite (Z.mod_small (xth / 256) 65536) by lia.
    replace (xth - xth / 256 * 256) with (xth mod 256) by lia.
    rewrite (Z.mod_small (xth mod 256) 4294967296) by lia.
    rewrite !(Z.mod_small (xth mod 256) 256) by lia.
    rewrite Z.mod_small; lia.
  - enum_cases Hov.
  - enum_cases Hun.
Qed.

Lemma reference_mode_round_trip (r : Z -> Z) (x : ilps28qsw_ref_md_t) :
  ref_md_domain x ->
  let s := ilps28qsw_reference_mode_set junk (Some double_ctx) x (device r) in
  result s = 0 /\
  result (ilps28qsw_reference_mode_get junk (Some double_ctx) (bus_after s)) = (0, x).
Proof.
  intros [Hap Hget] s. subst s.
  destruct x as [xap xget]. cbn [apply_ref get_ref] in *.
  unfold ilps28qsw_reference_mode_set, ilps28qsw_reference_mode_get.
  unfold io_bind, io_ret, result, calls, bus_after, bytecpy.
  device_step. change (0 =? 0) with true. cbv iota. cbn [apply_ref get_ref].
  repeat device_step. (split; [reflexivity|]).
  rewrite device_bytes_store by reflexivity.
  cbn [map nth fst snd apply_ref get_ref].
  bf_simpl. f_equal. f_equal.
  - enum_cases Hap.
  - enum_cases Hget.
Qed.

(** C2 (as amended).  On the device that stores the written bytes, with the
    register map of the device and from any prior register contents, a setter
    followed by its getter returns the value that was set, member by member:
    for the operating mode with the filter disabled or at ODR/4, for every
    FIFO mode and watermark 0..127, for the interrupt threshold configuration
    with a threshold below 32768 (the high threshold register holds seven
    bits), and for every reference mode. *)
Theorem configuration_round_trip (r : Z -> Z) :
  (forall x val0,
     md_domain x -> lpf x <> ILPS28QSW_LPF_ODR_DIV_9 ->
     let s := ilps28qsw_mode_set junk (Some double_ctx) x (device r) in
     result s = 0 /\
     result (ilps28qsw_mode_get junk (Some double_ctx) val0 (bus_after s))
       = (0, x)) /\
  (forall x,
     fifo_md_domain x ->
     let s := ilps28qsw_fifo_mode_set junk (Some double_ctx) x (device r) in
     result s = 0 /\
     result (ilps28qsw_fifo_mode_get junk (Some double_ctx) (bus_after s))
       = (0, x)) /\
  (forall x,
     int_th_md_domain x -> threshold x < 32768 ->
     let s :=
       ilps28qsw_int_on_threshold_mode_set junk (Some double_ctx) x (device r) in
     result s = 0 /\
     result (ilps28qsw_int_on_threshold_mode_get junk (Some double_ctx)
               (bus_after s)) = (0, x)) /\
  (forall x,
     ref_md_domain x ->
     let s := ilps28qsw_reference_mode_set junk (Some double_ctx) x (device r) in
     result s = 0 /\
     result (ilps28qsw_reference_mode_get junk (Some double_ctx) (bus_after s))
       = (0, x)).
Proof.
  split; [|split; [|split]].
  - intros x val0. apply mode_round_trip.
  - intros x. apply fifo_mode_round_trip.
  - intros x. apply int_on_threshold_round_trip.
  - intros x. apply reference_mode_round_trip.
Qed.

End OnDevice.

(** ** The statements on concrete runs *)

Section ConcreteRuns.

#[local] Existing Instance device_header.

(** Proves that a value is one of a list of numbers. *)
Ltac in_list := cbn; repeat (first [left; reflexivity | right]).



(** C2, counterexample.  Both values are in the documented domains; the
    filter selector ODR/9 reads back as disabled, and the threshold 32768
    reads back as 0. *)
Lemma round_trip_counterexample :
  (md_domain div9_mode /\
   snd (result (ilps28qsw_mode_get no_junk (Some double_ctx) div9_mode
                  (bus_after (ilps28qsw_mode_set no_junk (Some double_ctx)
                                div9_mode (device running_device)))))
   <> div9_mode) /\
  (int_th_md_domain threshold_top_bit /\
   snd (result (ilps28qsw_int_on_threshold_mode_get no_junk (Some double_ctx)
                  (bus_after (ilps28qsw_int_on_threshold_mode_set no_junk
                                (Some double_ctx) threshold_top_bit
                                (device running_device)))))
   <> threshold_top_bit).
Proof.
  split; split.
  - unfold md_domain. repeat split; in_list.
  - vm_compute. discriminate.
  - unfold int_th_md_domain. repeat split; try in_list; cbn; lia.
  - vm_compute. discriminate.
Qed.

Lemma configuration_round_trip_witness :
  result (ilps28qsw_mode_get no_junk (Some double_ctx) div9_mode
            (bus_after (ilps28qsw_mode_set no_junk (Some double_ctx)
                          interleaved_50Hz (device running_device))))
    = (0, interleaved_50Hz) /\
  result (ilps28qsw_fifo_mode_get no_junk (Some double_ctx)
            (bus_after (ilps28qsw_fifo_mode_set no_junk (Some double_ctx)
                          stream_with_watermark (device running_device))))
    = (0, stream_with_watermark).
Proof.
  destruct (configuration_round_trip no_junk running_device)
    as [Hmode [Hfifo _]].
  split.
  - apply (Hmode interleaved_50Hz div9_mode).
    + unfold md_domain. repeat split; in_list.
    + vm_compute. discriminate.
  - apply (Hfifo stream_with_watermark).
    unfold fifo_md_domain. split; [in_list|cbn; lia].
Defined.



#[local] Existing Instance exact_float.
#[local] Existing Instance wrapping_build.

(** The positive code 0x030201 is reported as it is.  For the code 0x830201
    the product by 256 overflows: a build that simplifies the division away
    reports 8585729, which is not the raw value divided by 256. *)
Lemma interleaved_sample_demux_witness :
  ah_qvar_lsb (snd (result (ilps28qsw_data_get no_junk (Some double_ctx)
                              interleaved_50Hz
                              (device positive_qvar_sample)))) = 197121 /\
  ah_qvar_lsb (snd (result (ilps28qsw_data_get (bld := folding_build) no_junk
                              (Some double_ctx) interleaved_50Hz
                              (device qvar_sample)))) = 8585729 /\
  Z.quot (pressure_raw (snd (result (ilps28qsw_data_get (bld := folding_build)
                                       no_junk (Some double_ctx)
                                       interleaved_50Hz
                                       (device qvar_sample))))) 256
    = -8191487.
Proof.
  split; [|split].
  - pose proof (interleaved_sample_demux no_junk double_ctx interleaved_50Hz
                  (device positive_qvar_sample) (device positive_qvar_sample)
                  0 1 2 3 0 0) as Hdemux.
    cbv zeta in Hdemux. destruct Hdemux as [_ [Hset _]];
      [reflexivity | exists [1; 2; 3; 0; 0]; split; reflexivity |].
    destruct (Hset eq_refl) as [_ [_ [Hclear _]]].
    destruct (Hclear eq_refl) as [_ [Hlsb _]]. rewrite Hlsb. reflexivity.
  - pose proof (interleaved_sample_demux (bld := folding_build) no_junk
                  double_ctx interleaved_50Hz (device qvar_sample)
                  (device qvar_sample) 0 1 2 131 0 0) as Hdemux.
    cbv zeta in Hdemux. destruct Hdemux as [_ [Hset _]];
      [reflexivity | exists [1; 2; 131; 0; 0]; split; reflexivity |].
    destruct (Hset eq_refl) as [_ [_ [_ Hover]]].
    rewrite (Hover eq_refl). reflexivity.
  - vm_compute. reflexivity.
Defined.



Lemma fifo_mode_set_preserves_other_bits_witness :
  exists fifo_ctrl' fifo_wtm' s,
    In (BusWrite 20 2 [fifo_ctrl'; fifo_wtm'] s)
       (calls (ilps28qsw_fifo_mode_set no_junk (Some double_ctx)
                 stream_with_watermark (device fifo_interleaved_device))) /\
    bf_get fifo_ctrl_ah_qvar_p_fifo_en fifo_ctrl' = 1.
Proof.
  destruct (fifo_mode_set_preserves_other_bits no_junk double_ctx
              stream_with_watermark (device fifo_interleaved_device))
    as [f [w [st [Hfail Hok]]]]; try reflexivity.
  destruct (Z.eq_dec st 0) as [Hst|Hst].
  - destruct (Hok Hst) as [f' [w' [s [Hcalls [_ [Hkeep _]]]]]].
    exists f', w', s. rewrite Hcalls.
    split; [right; left; reflexivity|]. rewrite Hkeep.
    vm_compute in Hcalls. injection Hcalls as <- _ _ _ _. reflexivity.
  - specialize (Hfail Hst). vm_compute in Hfail. discriminate Hfail.
Defined.


(** No conversion pending and the auto-zero bit set: the measurement is
    reported as finished and the reference as not done. *)
Lemma status_get_inverts_busy_flags_witness :
  Z.testbit (end_meas (snd (result (ilps28qsw_status_get no_junk
                                      (Some double_ctx)
                                      (device interrupt_device))))) 0
    = true /\
  Z.testbit (ref_done (snd (result (ilps28qsw_status_get no_junk
                                      (Some double_ctx)
                                      (device interrupt_device))))) 0
    = false /\
  length (calls (ilps28qsw_status_get no_junk (Some double_ctx)
                   (device interrupt_device))) = 4%nat.
Proof.
  destruct (status_get_inverts_busy_flags no_junk double_ctx
              (device interrupt_device)) as [_ Hfour]; [reflexivity|].
  destruct (Hfour 0 0 0 36 0 (device interrupt_device)
              (device interrupt_device) (device interrupt_device)
              (device interrupt_device))
    as [Hcalls [_ [_ [Hend Href]]]];
    [exists [0]; split; reflexivity | exists [0]; split; reflexivity
    |exists [0]; split; reflexivity | exists [36]; split; reflexivity |].
  cbv zeta in *. rewrite Hend, Href, Hcalls. repeat split; reflexivity.
Defined.

(** Three reads whose statuses are 5, 6, 0 return 0; three reads whose
    statuses are 5, 0, 6 return 6. *)
Lemma fifo_data_get_returns_last_status_witness :
  fst (result (ilps28qsw_fifo_data_get no_junk (Some double_ctx) 3
                 interleaved_50Hz [] fifo_reads_fail_first)) = 0 /\
  fst (result (ilps28qsw_fifo_data_get no_junk (Some double_ctx) 3
                 interleaved_50Hz [] fifo_reads_fail_last)) = 6 /\
  calls (ilps28qsw_fifo_data_get no_junk (Some double_ctx) 3
           interleaved_50Hz [] fifo_reads_fail_last) =
    [BusRead 120 3 [0; 0; 0] 5; BusRead 120 3 [0; 0; 0] 0;
     BusRead 120 3 [0; 0; 0] 6].
Proof.
  pose proof (fifo_data_get_returns_last_status no_junk double_ctx 3
                interleaved_50Hz [] fifo_reads_fail_first) as Hfirst.
  pose proof (fifo_data_get_returns_last_status no_junk double_ctx 3
                interleaved_50Hz [] fifo_reads_fail_last) as Hlast.
  cbv zeta in Hfirst, Hlast.
  destruct Hfirst as [_ [_ [_ [_ [Hres1 _]]]]].
  destruct Hlast as [Hcalls [_ [_ [_ [Hres2 _]]]]].
  rewrite Hres1, Hres2, Hcalls. repeat split; reflexivity.
Defined.

End ConcreteRuns.

(** * Further properties of the driver *)

(** ** Read-modify-write setters *)

Section Setters.

Context {H : Type} {hdr : ilps28qsw_reg_h} {hdm : ilps28qsw_reg_h_more}.
Variable junk : nat -> Z.
Variable c : stmdev_ctx_t H.



End Setters.

Lemma bf_set_member (f : bitfield) (b v : Z) :
  bf_wf f = true ->
  bf_get f (bf_set f b v) = Z.land v (Z.ones (bf_width f)) /\
  same_outside f b (bf_set f b v).
Proof.
  intros Hwf. apply bf_wf_bounds in Hwf. split.
  - apply bf_get_set_same; lia.
  - intros i Hi Hout. rewrite bf_set_testbit by lia. rewrite Hout. reflexivity.
Qed.

Lemma land_1_ones (w : Z) : 0 < w -> Z.land 1 (Z.ones w) = 1.
Proof.
  intros Hw. rewrite Z.land_ones by lia. apply Z.mod_small.
  assert (2 <= 2 ^ w); [|lia].
  change 2 with (2 ^ 1) at 1. apply Z.pow_le_mono_r; lia.
Qed.

Section SingleMemberSetters.

Context {H : Type} {hdr : ilps28qsw_reg_h} {hdm : ilps28qsw_reg_h_more}.
Variable junk : nat -> Z.
Variable c : stmdev_ctx_t H.

(** Opens a setter of one byte up to the byte read and the byte written. *)
Ltac one_byte_setter Hcalls :=
  driver_unfold; step_call;
  match goal with
  | |- context [buffer_fit (auto_buffer junk ?k 1) ?d] =>
      let x := fresh "x" in
      let Hx := fresh "Hx" in
      destruct (length_one (buffer_fit (auto_buffer junk k 1) d)) as [x Hx];
      [rewrite buffer_fit_length; apply auto_buffer_length|];
      rewrite Hx
  end;
  match goal with
  | |- context [int32_t ?s =? 0] =>
      destruct (int32_t s =? 0); cbn [fst snd nth]
  end;
  [step_call; intros Hcalls; injection Hcalls as -> _ <- _
  |intros Hcalls; discriminate Hcalls].

(** X2.  The setters of the SDA pull-up, of the QVAR enable and of the
    interrupt latch write back the byte they read with one member replaced
    by the value truncated to the width of the member; every other bit of
    the register is written as it was read. *)
Theorem flag_setters_change_one_member (val : Z) (h : H) :
  bf_wf if_ctrl_sda_pu_en = true ->
  bf_wf ctrl_reg3_ah_qvar_en = true ->
  bf_wf interrupt_cfg_lir = true ->
  (forall b b' st s,
     calls (ilps28qsw_pin_conf_set junk (Some c) val h) =
       [BusRead ILPS28QSW_IF_CTRL 1 [b] st;
        BusWrite ILPS28QSW_IF_CTRL 1 [b'] s] ->
     bf_get if_ctrl_sda_pu_en b' = Z.land val (Z.ones (bf_width if_ctrl_sda_pu_en)) /\
     same_outside if_ctrl_sda_pu_en b b') /\
  (forall b b' st s,
     calls (ilps28qsw_ah_qvar_en_set junk (Some c) val h) =
       [BusRead ILPS28QSW_CTRL_REG3 1 [b] st;
        BusWrite ILPS28QSW_CTRL_REG3 1 [b'] s] ->
     bf_get ctrl_reg3_ah_qvar_en b' =
       Z.land val (Z.ones (bf_width ctrl_reg3_ah_qvar_en)) /\
     same_outside ctrl_reg3_ah_qvar_en b b') /\
  (forall b b' st s,
     calls (ilps28qsw_interrupt_mode_set junk (Some c) val h) =
       [BusRead ILPS28QSW_INTERRUPT_CFG 1 [b] st;
        BusWrite ILPS28QSW_INTERRUPT_CFG 1 [b'] s] ->
     bf_get interrupt_cfg_lir b' = Z.land val (Z.ones (bf_width interrupt_cfg_lir)) /\
     same_outside interrupt_cfg_lir b b').
Proof.
  intros Hpu Hqv Hlir. split; [|split]; intros b b' st s.
  - unfold ilps28qsw_pin_conf_set. one_byte_setter Hcalls.
    apply bf_set_member. assumption.
  - unfold ilps28qsw_ah_qvar_en_set. one_byte_setter Hcalls.
    apply bf_set_member. assumption.
  - unfold ilps28qsw_interrupt_mode_set. one_byte_setter Hcalls.
    apply bf_set_member. assumption.
Qed.

(** X3.  [ilps28qsw_trigger_sw] does nothing unless the rate of the mode
    descriptor is one-shot: no transport call, the bus untouched, status 0. *)
Theorem trigger_sw_only_in_one_shot (md : ilps28qsw_md_t) (h : H) :
  odr md <> ILPS28QSW_ONE_SHOT ->
  ilps28qsw_trigger_sw junk (Some c) md h = (0, h, []).
Proof.
  intros Hodr. unfold ilps28qsw_trigger_sw.
  apply Z.eqb_neq in Hodr. rewrite Hodr. reflexivity.
Qed.


(** X5.  A request that is neither BOOT nor DRV_RDY is handled as RESET: the
    default branch of [ilps28qsw_init_set] makes the same calls with the
    same bytes as the RESET branch. *)
Theorem init_set_unknown_request_resets (val : Z) (h : H) :
  val <> ILPS28QSW_BOOT ->
  val <> ILPS28QSW_DRV_RDY ->
  ILPS28QSW_RESET <> ILPS28QSW_BOOT ->
  ilps28qsw_init_set junk (Some c) val h =
  ilps28qsw_init_set junk (Some c) ILPS28QSW_RESET h.
Proof.
  intros Hboot Hrdy Hrb. unfold ilps28qsw_init_set. driver_unfold.
  step_call. destruct (int32_t s =? 0); [|reflexivity].
  cbn [switch].
  apply Z.eqb_neq in Hboot, Hrdy, Hrb. rewrite Hboot, Hrdy, Hrb, Z.eqb_refl.
  destruct (val =? ILPS28QSW_RESET); reflexivity.
Qed.


End SingleMemberSetters.

(** ** Signed 16-bit quantities *)

Lemma int16_t_small x : -32768 <= x < 32768 -> int16_t x = x.
Proof. intros Hx. unfold int16_t. rewrite Z.mod_small; lia. Qed.

Lemma sign_extend16_spec v :
  0 <= v < 65536 ->
  sign_extend16 v = (if 32768 <=? v then v - 65536 else v).
Proof.
  intros Hv. unfold sign_extend16.
  rewrite (testbit_top v 15) by (cbn; lia). reflexivity.
Qed.

Lemma int16_of_bytes b0 b1 :
  0 <= b0 < 256 -> 0 <= b1 < 256 ->
  int16_t (int16_t b1 * 256 + int16_t b0) = sign_extend16 (code16 b0 b1).
Proof.
  intros H0 H1. rewrite (int16_t_small b1), (int16_t_small b0) by lia.
  rewrite sign_extend16_spec by (unfold code16; lia). unfold code16, int16_t.
  destruct (Z.leb_spec 32768 (b1 * 256 + b0)).
  - replace (b1 * 256 + b0 + 32768)
      with (b1 * 256 + b0 - 32768 + 1 * 65536) by lia.
    rewrite Z.mod_add by lia. rewrite Z.mod_small; lia.
  - rewrite Z.mod_small; lia.
Qed.


Lemma land_high_byte x :
  0 <= x < 65536 -> Z.land x 0xFF00 / 256 = x / 256.
Proof.
  intros Hx.
  assert (Hland : Z.land x 0xFF00 = Z.shiftl (Z.shiftr x 8) 8).
  { apply Z.bits_inj'. intros i Hi.
    rewrite Z.land_spec.
    change 0xFF00 with (Z.shiftl (Z.ones 8) 8).
    rewrite !Z.shiftl_spec by lia.
    destruct (Z.ltb_spec i 8) as [Hlt|Hge].
    - rewrite !(Z.testbit_neg_r _ (i - 8)) by lia. apply andb_false_r.
    - rewrite Z.shiftr_spec by lia. replace (i - 8 + 8) with i by lia.
      rewrite testbit_ones by lia.
      destruct (Z.leb_spec 0 (i - 8)); [|lia].
      destruct (Z.ltb_spec (i - 8) 8); cbn; [apply andb_true_r|].
      rewrite andb_false_r. symmetry.
      destruct (Z.eq_dec x 0) as [->|Hne]; [apply Z.bits_0|].
      apply Z.bits_above_log2; [lia|].
      assert (Z.log2 x < 16) by (apply Z.log2_lt_pow2; lia). lia. }
  rewrite Hland, Z.shiftl_mul_pow2, Z.shiftr_div_pow2 by lia.
  change (2 ^ 8) with 256. apply Z.div_mul. lia.
Qed.

Section SignedQuantities.

Context {H : Type} {hdr : ilps28qsw_reg_h} {hdm : ilps28qsw_reg_h_more}.
Context {fl : float_ops} {bld : c_build}.
Variable junk : nat -> Z.
Variable c : stmdev_ctx_t H.



(** X8.  The mode descriptor only selects the conversion in
    [ilps28qsw_data_get]: whatever it is, the same single read of five bytes
    is made, the same status and raw codes come back, and the temperature is
    the sign-extended little-endian code of bytes 3 and 4 converted by
    [ilps28qsw_from_lsb_to_celsius]. *)
Theorem data_get_temperature_and_traffic (md md' : ilps28qsw_md_t) (h : H) :
  exists b0 b1 b2 b3 b4 st,
    let r := ilps28qsw_data_get junk (Some c) md h in
    let r' := ilps28qsw_data_get junk (Some c) md' h in
    calls r = [BusRead ILPS28QSW_PRESS_OUT_XL 5 [b0; b1; b2; b3; b4] st] /\
    fst (result r) = st /\
    heat_raw (snd (result r)) = sign_extend16 (code16 b3 b4) /\
    heat_deg_c (snd (result r)) =
      ilps28qsw_from_lsb_to_celsius (heat_raw (snd (result r))) /\
    calls r' = calls r /\ bus_after r' = bus_after r /\
    fst (result r') = fst (result r) /\
    heat_raw (snd (result r')) = heat_raw (snd (result r)) /\
    pressure_raw (snd (result r')) = pressure_raw (snd (result r)).
Proof.
  unfold ilps28qsw_data_get. driver_unfold. step_call.
  pose proof (buffer_fit_bytes (auto_buffer junk 0 5) d) as Hbytes.
  destruct (length_five (buffer_fit (auto_buffer junk 0 5) d))
    as [b0 [b1 [b2 [b3 [b4 Hbuf]]]]];
    [rewrite buffer_fit_length; apply auto_buffer_length|].
  rewrite Hbuf in *.
  inversion Hbytes as [|? ? Hb0 Hr0]; subst.
  inversion Hr0 as [|? ? Hb1 Hr1]; subst.
  inversion Hr1 as [|? ? Hb2 Hr2]; subst.
  inversion Hr2 as [|? ? Hb3 Hr3]; subst.
  inversion Hr3 as [|? ? Hb4 Hr4]; subst.
  exists b0, b1, b2, b3, b4, (int32_t s).
  cbn [nth fst snd heat_raw heat_deg_c pressure_raw].
  rewrite int16_of_bytes by assumption. repeat split.
Qed.


(** X10.  Outside interleaved mode every sample of [ilps28qsw_data_get] is a
    pressure sample: [ah_qvar.lsb] is 0 and the pressure is converted by the
    formula of the full scale, whatever bit 0 of the lowest byte is.  With a
    full scale that is neither enumerator the pressure is 0.0, in every
    mode. *)
Theorem data_get_plain_pressure (md : ilps28qsw_md_t) (h : H) :
  let d := snd (result (ilps28qsw_data_get junk (Some c) md h)) in
  (interleaved_mode md <> 1 ->
   ah_qvar_lsb d = 0 /\
   pressure_hpa d =
     switch (fs md)
       [(ILPS28QSW_1260hPa, ilps28qsw_from_fs1260_to_hPa (pressure_raw d));
        (ILPS28QSW_4060hPa, ilps28qsw_from_fs4060_to_hPa (pressure_raw d))]
       (float_lit 0)) /\
  (fs md <> ILPS28QSW_1260hPa -> fs md <> ILPS28QSW_4060hPa ->
   pressure_hpa d = float_lit 0).
Proof.
  destruct (data_get_run junk c md h)
    as [b0 [b1 [b2 [b3 [b4 [st [_ [_ [Hraw Hout]]]]]]]]].
  cbv zeta in *. rewrite <- Hraw in Hout. split.
  - intros Hmode. apply Z.eqb_neq in Hmode. rewrite Hmode in Hout.
    injection Hout as Hhpa Hlsb. split; assumption.
  - intros H1 H2. apply Z.eqb_neq in H1, H2.
    cbn [switch] in Hout. rewrite H1, H2 in Hout.
    destruct (interleaved_mode md =? 1); [destruct (Z.land b0 1 =? 0)|];
      injection Hout as Hhpa _; exact Hhpa.
Qed.

End SignedQuantities.

(** ** The samples of a FIFO batch *)




Section FifoSamples.

Context {H : Type} {hdr : ilps28qsw_reg_h} {fl : float_ops}
  {bld : c_build}.
Variable junk : nat -> Z.
Variable c : stmdev_ctx_t H.



End FifoSamples.

(** ** Chains of reads *)



Section ReadChains.

Context {H : Type} {hdr : ilps28qsw_reg_h} {hdm : ilps28qsw_reg_h_more}.
Variable junk : nat -> Z.
Variable c : stmdev_ctx_t H.



End ReadChains.

(** ** The operating-mode setter in every case *)

Section ModeSetCases.

Context {H : Type} {hdr : ilps28qsw_reg_h}.
Variable junk : nat -> Z.
Variable c : stmdev_ctx_t H.


End ModeSetCases.

Lemma bf_set_outside (f : bitfield) (b v i : Z) :
  bf_wf f = true -> 0 <= i -> bf_inside f i = false ->
  Z.testbit (bf_set f b v) i = Z.testbit b i.
Proof.
  intros Hwf Hi Hout. apply bf_wf_bounds in Hwf.
  rewrite bf_set_testbit by lia. rewrite Hout. reflexivity.
Qed.

(** A member cleared, another member set, and the first put back. *)
Lemma restore_member (f g : bitfield) (b v : Z) :
  bf_wf f = true -> bf_wf g = true ->
  same_outside g b (bf_set f (bf_set g (bf_set f b 0) v) (bf_get f b)).
Proof.
  intros Hf Hg i Hi Hout.
  pose proof (bf_wf_bounds f Hf) as Bf.
  rewrite (bf_set_testbit f) by lia.
  destruct (bf_inside f i) eqn:Hin.
  - unfold bf_inside in Hin. apply andb_true_iff in Hin.
    rewrite Z.leb_le, Z.ltb_lt in Hin.
    rewrite bf_get_testbit by lia.
    destruct (Z.ltb_spec (i - bf_lsb f) (bf_width f)); [|lia].
    cbn [andb]. f_equal. lia.
  - rewrite (bf_set_outside g) by assumption.
    apply bf_set_outside; assumption.
Qed.

Section ModeSetFrame.

Context {H : Type} {hdr : ilps28qsw_reg_h}.
Variable junk : nat -> Z.
Variable c : stmdev_ctx_t H.

(** X14.  What [ilps28qsw_mode_set] leaves alone.  After a successful first
    read its last call is the combined write of the three control registers,
    in which every bit outside the rate and averaging members of control
    register 1, outside the two filter members and the full scale of control
    register 2, and outside the interleave flag of control register 3 has
    the value that was read, so the QVAR enable, cleared on the way, is back
    in place.  The FIFO control register is written back with every bit
    outside its interleave flag as read. *)
Theorem mode_set_keeps_unrelated_bits (val : ilps28qsw_md_t) (h : H) :
  bf_wf ctrl_reg1_odr = true -> bf_wf ctrl_reg1_avg = true ->
  bf_wf ctrl_reg2_en_lpfp = true -> bf_wf ctrl_reg2_lfpf_cfg = true ->
  bf_wf ctrl_reg2_fs_mode = true ->
  bf_wf ctrl_reg3_ah_qvar_p_auto_en = true ->
  bf_wf ctrl_reg3_ah_qvar_en = true ->
  bf_wf fifo_ctrl_ah_qvar_p_fifo_en = true ->
  forall c1 c2 c3,
    hd_error (calls (ilps28qsw_mode_set junk (Some c) val h)) =
      Some (BusRead ILPS28QSW_CTRL_REG1 3 [c1; c2; c3] 0) ->
    exists f1 f2 f3 s fifo fifo' s4 s5,
      last (calls (ilps28qsw_mode_set junk (Some c) val h)) (BusRead 0 0 [] 0) =
        BusWrite ILPS28QSW_CTRL_REG1 3 [f1; f2; f3] s /\
      In (BusRead ILPS28QSW_FIFO_CTRL 1 [fifo] s4)
         (calls (ilps28qsw_mode_set junk (Some c) val h)) /\
      In (BusWrite ILPS28QSW_FIFO_CTRL 1 [fifo'] s5)
         (calls (ilps28qsw_mode_set junk (Some c) val h)) /\
      (forall i, 0 <= i ->
         bf_inside ctrl_reg1_odr i = false ->
         bf_inside ctrl_reg1_avg i = false ->
         Z.testbit f1 i = Z.testbit c1 i) /\
      (forall i, 0 <= i ->
         bf_inside ctrl_reg2_en_lpfp i = false ->
         bf_inside ctrl_reg2_lfpf_cfg i = false ->
         bf_inside ctrl_reg2_fs_mode i = false ->
         Z.testbit f2 i = Z.testbit c2 i) /\
      same_outside ctrl_reg3_ah_qvar_p_auto_en c3 f3 /\
      same_outside fifo_ctrl_ah_qvar_p_fifo_en fifo fifo'.
Proof.
  intros Hodr Havg Hen Hcfg Hfs Hauto Hqv Hfifo c1 c2 c3.
  unfold ilps28qsw_mode_set. driver_unfold. step_call.
  destruct (int32_t s =? 0) eqn:Est; cbn [fst snd];
    [|cbn; intros Hhd; injection Hhd as _ Hs; rewrite Hs in Est;
      discriminate Est].
  destruct (bf_get ctrl_reg1_odr
              (nth 0 (buffer_fit (auto_buffer junk 0 3) d) 0) =? 0) eqn:Eodr;
    destruct (bf_get ctrl_reg3_ah_qvar_en
                (nth 2 (buffer_fit (auto_buffer junk 0 3) d) 0) =? 0) eqn:Eqv;
    cbn [negb fst snd]; repeat step_call;
    match goal with
    | |- context [buffer_fit (auto_buffer junk 3 1) ?d4] =>
        destruct (length_one (buffer_fit (auto_buffer junk 3 1) d4))
          as [fifo Hfifo'];
        [rewrite buffer_fit_length; apply auto_buffer_length|];
        rewrite Hfifo'
    end;
    cbn [nth]; rewrite ?Eodr, ?Eqv; cbn [negb Z.eqb app hd_error];
    intros Hhd; injection Hhd as Hbuf _; rewrite Hbuf; cbn [nth];
    do 4 eexists; exists fifo; do 3 eexists;
    (split; [cbn [last]; reflexivity|]);
    (split; [cbn [In]; auto 10|]);
    (split; [cbn [In]; auto 10|]);
    (split;
     [intros i Hi O1 O2;
      rewrite !bf_set_outside by assumption; reflexivity|]);
    (split;
     [intros i Hi O1 O2 O3;
      rewrite !bf_set_outside by assumption; reflexivity|]);
    (split; [|intros i Hi O1; apply bf_set_outside; assumption]).
  - intros i Hi O1. apply bf_set_outside; assumption.
  - apply restore_member; assumption.
  - intros i Hi O1. apply bf_set_outside; assumption.
  - apply restore_member; assumption.
Qed.

End ModeSetFrame.

(** ** More on the device that stores what is written *)

Lemma store_above (data : list Z) :
  forall r reg a,
    reg + Z.of_nat (length data) <= a -> store r reg data a = r a.
Proof.
  induction data as [|b data IH]; intros r reg a Ha; cbn [store]; [reflexivity|].
  cbn [length] in Ha. rewrite IH by lia.
  destruct (Z.eqb_spec a reg); [lia|reflexivity].
Qed.

Lemma device_bytes_store_skip (data : list Z) r reg reg' n :
  reg + Z.of_nat (length data) <= reg' \/ reg' + Z.of_nat n <= reg ->
  device_bytes (store r reg data) reg' n = device_bytes r reg' n.
Proof.
  intros Hsep. unfold device_bytes, load. rewrite !map_map.
  apply map_ext_in. intros i Hi. apply in_seq in Hi. f_equal.
  destruct Hsep as [Hsep|Hsep].
  - apply store_above. lia.
  - apply store_below. lia.
Qed.

Lemma device_bytes_cons r reg n :
  device_bytes r reg (S n) = uint8_t (r reg) :: device_bytes r (reg + 1) n.
Proof. unfold device_bytes. rewrite load_shift. reflexivity. Qed.

Lemma device_bytes_store_head (b : Z) (rest : list Z) r reg n :
  device_bytes (store r reg (b :: rest)) reg (S n) =
  uint8_t b :: device_bytes (store r reg (b :: rest)) (reg + 1) n.
Proof.
  rewrite device_bytes_cons. f_equal. cbn [store].
  rewrite store_below by lia. rewrite Z.eqb_refl. apply uint8_t_idem.
Qed.

Lemma device_bytes_store_one (b : Z) r reg n :
  device_bytes (store r reg [b]) (reg + 1) n = device_bytes r (reg + 1) n.
Proof. apply device_bytes_store_skip. left. cbn. lia. Qed.

Lemma bf_disjoint_sym f g : bf_disjoint f g = bf_disjoint g f.
Proof. unfold bf_disjoint. apply orb_comm. Qed.

Lemma bf_get_set_same_wf f s v :
  bf_wf f = true -> bf_get f (bf_set f s v) = Z.land v (Z.ones (bf_width f)).
Proof. intros Hf. apply bf_wf_bounds in Hf. apply bf_get_set_same; lia. Qed.

Lemma bf_get_set_other_wf f g s v :
  bf_wf f = true -> bf_wf g = true -> bf_disjoint f g = true ->
  bf_get g (bf_set f s v) = bf_get g s.
Proof.
  intros Hf Hg Hd. apply bf_wf_bounds in Hf, Hg.
  apply bf_get_set_other; (assumption || lia).
Qed.

Lemma bf_get_byte f s : 0 <= s < 256 -> bf_wf f = true -> 0 <= bf_get f s < 256.
Proof.
  intros Hs Hf. unfold bf_wf in Hf.
  rewrite !andb_true_iff, !Z.leb_le, Z.ltb_lt in Hf. destruct Hf as [[Hl Hw] H8].
  pose proof (bf_get_range f s ltac:(lia)) as Hr.
  assert (2 ^ bf_width f <= 2 ^ 8) by (apply Z.pow_le_mono_r; lia).
  change (2 ^ 8) with 256 in *. lia.
Qed.

(** Splits the assumption that a layout is well formed into the facts about
    its members. *)
Ltac layout_facts Hl :=
  unfold layout_ok in Hl; cbn [forallb pairwise] in Hl;
  repeat match goal with
         | Hc : _ && _ = true |- _ =>
             apply andb_true_iff in Hc; destruct Hc
         end.

Ltac disjoint_side :=
  first [assumption | rewrite bf_disjoint_sym; assumption].

Ltac byte_range_hyp :=
  repeat (apply bf_set_byte; [assumption|]);
  first [apply nth_device_bytes_range | apply uint8_t_range].

(** Reads the members back from the bytes written, from the facts about the
    layout that are among the assumptions. *)
Ltac bf_simpl_hyp :=
  repeat first
    [ match goal with
      | |- context [uint8_t (bf_set ?f ?s ?v)] =>
          rewrite (uint8_t_small (bf_set f s v)) by byte_range_hyp
      end
    | rewrite uint8_t_idem
    | rewrite bf_get_set_same_wf by assumption
    | rewrite bf_get_set_other_wf by (assumption || disjoint_side) ].

Ltac device_run :=
  unfold io_bind, io_ret, result, calls, bus_after, bytecpy;
  repeat (device_step;
          try (change (0 =? 0) with true; cbv iota; cbn [fst snd])).

Section OnDeviceGeneric.

Context {hdr : ilps28qsw_reg_h} {hdm : ilps28qsw_reg_h_more}.
Variable junk : nat -> Z.

(** X15.  The offset written by [ilps28qsw_opc_set] is the one that
    [ilps28qsw_opc_get] reads back, for every 16-bit signed value, negative
    ones included. *)
Theorem opc_round_trip (r : Z -> Z) (val : Z) :
  -32768 <= val < 32768 ->
  let s := ilps28qsw_opc_set (Some double_ctx) val (device r) in
  result s = 0 /\
  result (ilps28qsw_opc_get junk (Some double_ctx) (bus_after s)) = (0, val).
Proof.
  intros Hval s. subst s. unfold ilps28qsw_opc_set, ilps28qsw_opc_get.
  device_run. split; [reflexivity|].
  rewrite device_bytes_store by reflexivity. cbn [map nth]. f_equal.
  rewrite !uint8_t_idem.
  assert (Hx : 0 <= uint16_t val < 65536)
    by (unfold uint16_t; apply Z.mod_pos_bound; lia).
  rewrite land_high_byte by assumption.
  change 0x00FF with (Z.ones 8). rewrite Z.land_ones by lia.
  change (2 ^ 8) with 256.
  assert (Hq : 0 <= uint16_t val / 256 < 256).
  { split; [apply Z.div_pos; lia|apply Z.div_lt_upper_bound; lia]. }
  pose proof (Z.mod_pos_bound (uint16_t val) 256 ltac:(lia)) as Hm.
  rewrite (uint8_t_small (uint16_t val / 256)) by assumption.
  rewrite (uint8_t_small (uint16_t val mod 256)) by assumption.
  rewrite (int16_t_small (uint16_t val / 256)) by lia.
  rewrite (int16_t_small (uint16_t val mod 256)) by lia.
  pose proof (Z.div_mod (uint16_t val) 256 ltac:(lia)) as Hdm.
  replace (uint16_t val / 256 * 256 + uint16_t val mod 256)
    with (uint16_t val) by lia.
  unfold int16_t, uint16_t.
  rewrite Z.add_mod_idemp_l by lia. rewrite Z.mod_small; lia.
Qed.

End OnDeviceGeneric.

Lemma switch_member (x : Z) (enum : list Z) (default : Z) :
  In x enum -> switch x (map (fun e => (e, e)) enum) default = x.
Proof. intros Hin. apply (proj1 (switch_decodes x enum default) Hin). Qed.

Lemma land_ones_small (v w : Z) :
  0 <= w -> 0 <= v < 2 ^ w -> Z.land v (Z.ones w) = v.
Proof. intros Hw Hv. rewrite Z.land_ones by lia. apply Z.mod_small. lia. Qed.

Section FlagsOnDevice.

Context {hdr : ilps28qsw_reg_h} {hdm : ilps28qsw_reg_h_more}.
Variable junk : nat -> Z.

(** X16.  What the getters of the SDA pull-up, of the QVAR enable and of the
    interrupt latch return after their setters: the value set truncated to
    the width of the register member (and then to the width of the flag of
    the structure), so that with one-bit members only bit 0 of the value
    survives. *)
Theorem flag_setters_read_back (r : Z -> Z) (val : Z) :
  bf_wf if_ctrl_sda_pu_en = true ->
  bf_wf ctrl_reg3_ah_qvar_en = true ->
  bf_wf interrupt_cfg_lir = true ->
  result (ilps28qsw_pin_conf_get junk (Some double_ctx)
            (bus_after (ilps28qsw_pin_conf_set junk (Some double_ctx) val
                          (device r)))) =
    (0, Z.land (Z.land val (Z.ones (bf_width if_ctrl_sda_pu_en)))
               (Z.ones pin_conf_flag_bits)) /\
  result (ilps28qsw_ah_qvar_en_get junk (Some double_ctx)
            (bus_after (ilps28qsw_ah_qvar_en_set junk (Some double_ctx) val
                          (device r)))) =
    (0, Z.land val (Z.ones (bf_width ctrl_reg3_ah_qvar_en))) /\
  result (ilps28qsw_interrupt_mode_get junk (Some double_ctx)
            (bus_after (ilps28qsw_interrupt_mode_set junk (Some double_ctx) val
                          (device r)))) =
    (0, Z.land (Z.land val (Z.ones (bf_width interrupt_cfg_lir)))
               (Z.ones int_mode_flag_bits)).
Proof.
  intros Hpu Hqv Hlir. split; [|split].
  - unfold ilps28qsw_pin_conf_get, ilps28qsw_pin_conf_set. device_run.
    rewrite device_bytes_store by reflexivity. cbn [map nth].
    bf_simpl_hyp. reflexivity.
  - unfold ilps28qsw_ah_qvar_en_get, ilps28qsw_ah_qvar_en_set. device_run.
    rewrite device_bytes_store by reflexivity. cbn [map nth].
    bf_simpl_hyp. f_equal. rewrite <- (bf_get_set_same_wf _ 0 val Hqv).
    apply uint8_t_small. apply bf_get_byte; [|assumption].
    apply bf_set_byte; [assumption|lia].
  - unfold ilps28qsw_interrupt_mode_get, ilps28qsw_interrupt_mode_set.
    device_run.
    rewrite device_bytes_store by reflexivity. cbn [map nth].
    bf_simpl_hyp. reflexivity.
Qed.

(** X17.  The bus mode that [ilps28qsw_bus_mode_set] writes is the one that
    [ilps28qsw_bus_mode_get] reads back, for both filter settings and all
    four bus-available times, whenever the two members of the register do
    not overlap and the enumerators are the codes 0..1 and 0..3 that the
    setter masks them to. *)
Theorem bus_mode_round_trip (r : Z -> Z) (x val0 : ilps28qsw_bus_mode_t) :
  layout_ok [i3c_if_ctrl_asf_on; i3c_if_ctrl_I3C_Bus_Avb_Sel] = true ->
  2 <= bf_width i3c_if_ctrl_I3C_Bus_Avb_Sel ->
  In (bus_filter x) [ILPS28QSW_AUTO; ILPS28QSW_ALWAYS_ON] ->
  In (bus_avb_time x)
     [ILPS28QSW_BUS_AVB_TIME_50us; ILPS28QSW_BUS_AVB_TIME_2us;
      ILPS28QSW_BUS_AVB_TIME_1ms; ILPS28QSW_BUS_AVB_TIME_25ms] ->
  0 <= bus_filter x < 2 ->
  0 <= bus_avb_time x < 4 ->
  let s := ilps28qsw_bus_mode_set junk (Some double_ctx) x (device r) in
  result s = 0 /\
  result (ilps28qsw_bus_mode_get junk (Some double_ctx) val0 (bus_after s))
    = (0, x).
Proof.
  intros Hl Hw2 Hf Ha Hfr Har s. subst s. layout_facts Hl.
  destruct x as [xf xa]. cbn [bus_filter bus_avb_time] in *.
  unfold ilps28qsw_bus_mode_set, ilps28qsw_bus_mode_get. device_run.
  cbn [bus_filter bus_avb_time]. device_run. split; [reflexivity|].
  rewrite device_bytes_store by reflexivity. cbn [map nth].
  change (0 =? 0) with true. cbv iota.
  bf_simpl_hyp.
  rewrite (uint8_t_small xf), (uint8_t_small xa) by lia.
  change 1 with (Z.ones 1) at 1. change 3 with (Z.ones 2).
  assert (Hasf : bf_wf i3c_if_ctrl_asf_on = true) by assumption.
  pose proof (bf_wf_bounds _ Hasf) as B1.
  assert (2 ^ 1 <= 2 ^ bf_width i3c_if_ctrl_asf_on)
    by (apply Z.pow_le_mono_r; lia).
  assert (2 ^ 2 <= 2 ^ bf_width i3c_if_ctrl_I3C_Bus_Avb_Sel)
    by (apply Z.pow_le_mono_r; lia).
  change (2 ^ 1) with 2 in *. change (2 ^ 2) with 4 in *.
  rewrite (land_ones_small xf 1) by (change (2 ^ 1) with 2; lia).
  rewrite (land_ones_small xa 2) by (change (2 ^ 2) with 4; lia).
  rewrite (land_ones_small xf) by lia.
  rewrite (land_ones_small xa) by lia.
  f_equal. f_equal.
  - apply (switch_member xf [ILPS28QSW_AUTO; ILPS28QSW_ALWAYS_ON]). assumption.
  - apply (switch_member xa
             [ILPS28QSW_BUS_AVB_TIME_50us; ILPS28QSW_BUS_AVB_TIME_2us;
              ILPS28QSW_BUS_AVB_TIME_1ms; ILPS28QSW_BUS_AVB_TIME_25ms]).
    assumption.
Qed.

End FlagsOnDevice.

(** Brings the bytes read from the device into the form of a list of the
    bytes stored. *)
Ltac device_bytes_norm :=
  repeat first
    [ rewrite device_bytes_store_skip by (cbn [length]; lia)
    | rewrite device_bytes_store_head
    | rewrite device_bytes_store_one
    | rewrite device_bytes_cons ];
  repeat match goal with
         | |- context [device_bytes ?r ?a 0] =>
             change (device_bytes r a 0) with (@nil Z)
         end;
  cbn [nth].

Section SettingsCompose.

Context {hdr : ilps28qsw_reg_h} {hdm : ilps28qsw_reg_h_more}.
Variable junk : nat -> Z.

(** X18.  The settings that share the interrupt configuration register do
    not disturb one another.  On the device that stores what is written, and
    when the members of that register do not overlap: setting the threshold
    configuration leaves the reference mode and the latch mode as they read
    back before, setting the reference mode leaves the threshold
    configuration and the latch mode, and setting the latch mode leaves the
    threshold configuration and the reference mode. *)
Theorem interrupt_cfg_settings_independent (r : Z -> Z)
    (th : ilps28qsw_int_th_md_t) (ref : ilps28qsw_ref_md_t) (latch : Z) :
  layout_ok [interrupt_cfg_phe; interrupt_cfg_ple; interrupt_cfg_lir;
             interrupt_cfg_reset_az; interrupt_cfg_autozero;
             interrupt_cfg_reset_arp; interrupt_cfg_autorefp] = true ->
  let after_th :=
    bus_after (ilps28qsw_int_on_threshold_mode_set junk (Some double_ctx) th
                 (device r)) in
  let after_ref :=
    bus_after (ilps28qsw_reference_mode_set junk (Some double_ctx) ref
                 (device r)) in
  let after_latch :=
    bus_after (ilps28qsw_interrupt_mode_set junk (Some double_ctx) latch
                 (device r)) in
  (result (ilps28qsw_reference_mode_get junk (Some double_ctx) after_th) =
   result (ilps28qsw_reference_mode_get junk (Some double_ctx) (device r)) /\
   result (ilps28qsw_interrupt_mode_get junk (Some double_ctx) after_th) =
   result (ilps28qsw_interrupt_mode_get junk (Some double_ctx) (device r))) /\
  (result (ilps28qsw_int_on_threshold_mode_get junk (Some double_ctx) after_ref) =
   result (ilps28qsw_int_on_threshold_mode_get junk (Some double_ctx) (device r)) /\
   result (ilps28qsw_interrupt_mode_get junk (Some double_ctx) after_ref) =
   result (ilps28qsw_interrupt_mode_get junk (Some double_ctx) (device r))) /\
  (result (ilps28qsw_int_on_threshold_mode_get junk (Some double_ctx) after_latch) =
   result (ilps28qsw_int_on_threshold_mode_get junk (Some double_ctx) (device r)) /\
   result (ilps28qsw_reference_mode_get junk (Some double_ctx) after_latch) =
   result (ilps28qsw_reference_mode_get junk (Some double_ctx) (device r))).
Proof.
  intros Hl after_th after_ref after_latch.
  subst after_th after_ref after_latch. layout_facts Hl.
  unfold ilps28qsw_int_on_threshold_mode_set, ilps28qsw_reference_mode_set,
    ilps28qsw_interrupt_mode_set, ilps28qsw_int_on_threshold_mode_get,
    ilps28qsw_reference_mode_get, ilps28qsw_interrupt_mode_get.
  repeat split; device_run; device_bytes_norm; bf_simpl_hyp; reflexivity.
Qed.

(** X19.  The operating mode and the FIFO mode do not disturb one another.
    On the device that stores what is written, when the FIFO control
    register lies above the control registers and its members do not
    overlap: after [ilps28qsw_mode_set], whatever it changed of the
    interleave flags, [ilps28qsw_fifo_mode_get] returns what it returned
    before; and after [ilps28qsw_fifo_mode_set], [ilps28qsw_mode_get]
    returns what it returned before. *)
Theorem mode_and_fifo_settings_independent (r : Z -> Z)
    (x val0 : ilps28qsw_md_t) (xf : ilps28qsw_fifo_md_t) :
  layout_ok [fifo_ctrl_f_mode; fifo_ctrl_trig_modes; fifo_ctrl_stop_on_wtm;
             fifo_ctrl_ah_qvar_p_fifo_en] = true ->
  ILPS28QSW_CTRL_REG1 + 3 <= ILPS28QSW_FIFO_CTRL ->
  ILPS28QSW_CTRL_REG3 + 1 <= ILPS28QSW_FIFO_CTRL ->
  result (ilps28qsw_fifo_mode_get junk (Some double_ctx)
            (bus_after (ilps28qsw_mode_set junk (Some double_ctx) x (device r))))
  = result (ilps28qsw_fifo_mode_get junk (Some double_ctx) (device r)) /\
  result (ilps28qsw_mode_get junk (Some double_ctx) val0
            (bus_after (ilps28qsw_fifo_mode_set junk (Some double_ctx) xf
                          (device r))))
  = result (ilps28qsw_mode_get junk (Some double_ctx) val0 (device r)).
Proof.
  intros Hl Ha1 Ha3. layout_facts Hl.
  unfold ilps28qsw_fifo_mode_get, ilps28qsw_mode_set, ilps28qsw_mode_get,
    ilps28qsw_fifo_mode_set.
  split.
  - unfold io_bind, io_ret, result, calls, bus_after, bytecpy.
    device_step. change (0 =? 0) with true. cbv iota.
    destruct (bf_get ctrl_reg1_odr
                (nth 0 (device_bytes r ILPS28QSW_CTRL_REG1 3) 0) =? 0);
      destruct (bf_get ctrl_reg3_ah_qvar_en
                  (nth 2 (device_bytes r ILPS28QSW_CTRL_REG1 3) 0) =? 0);
      cbn [negb fst snd]; repeat device_step;
      device_bytes_norm; bf_simpl_hyp; reflexivity.
  - unfold io_bind, io_ret, result, calls, bus_after, bytecpy.
    device_step. change (0 =? 0) with true. cbv iota.
    destruct (negb (watermark xf =? 0)); repeat device_step;
      device_bytes_norm; reflexivity.
Qed.

End SettingsCompose.

(** ** The encoding of the threshold *)

Section ThresholdEncoding.

Context {H : Type} {hdr : ilps28qsw_reg_h}.
Variable junk : nat -> Z.
Variable c : stmdev_ctx_t H.


End ThresholdEncoding.

(** ** The null context, and the traffic of the getters *)

Section NullContext.

Context {H : Type} {hdr : ilps28qsw_reg_h} {hdm : ilps28qsw_reg_h_more}.
Variable junk : nat -> Z.

(** X21.  With a null context no setter reaches the bus: each returns -1
    and leaves the bus state alone.  [ilps28qsw_mode_get] and
    [ilps28qsw_bus_mode_get] return -1 with the caller's value unchanged,
    and [ilps28qsw_trigger_sw] still returns 0 when the rate is not
    one-shot. *)
Theorem null_context_fails_without_bus_access (h : H)
    (md : ilps28qsw_md_t) (fmd : ilps28qsw_fifo_md_t)
    (th : ilps28qsw_int_th_md_t) (ref : ilps28qsw_ref_md_t)
    (bm : ilps28qsw_bus_mode_t) (v : Z) :
  ilps28qsw_mode_set junk None md h = (-1, h, []) /\
  ilps28qsw_fifo_mode_set junk None fmd h = (-1, h, []) /\
  ilps28qsw_int_on_threshold_mode_set junk None th h = (-1, h, []) /\
  ilps28qsw_reference_mode_set junk None ref h = (-1, h, []) /\
  ilps28qsw_bus_mode_set junk None bm h = (-1, h, []) /\
  ilps28qsw_init_set junk None v h = (-1, h, []) /\
  ilps28qsw_pin_conf_set junk None v h = (-1, h, []) /\
  ilps28qsw_ah_qvar_en_set junk None v h = (-1, h, []) /\
  ilps28qsw_interrupt_mode_set junk None v h = (-1, h, []) /\
  ilps28qsw_opc_set None v h = (-1, h, []) /\
  ilps28qsw_mode_get junk None md h = (-1, md, h, []) /\
  ilps28qsw_bus_mode_get junk None bm h = (-1, bm, h, []) /\
  ilps28qsw_trigger_sw junk None md h =
    ((if odr md =? ILPS28QSW_ONE_SHOT then -1 else 0), h, []).
Proof.
  repeat split; try reflexivity.
  unfold ilps28qsw_trigger_sw.
  destruct (odr md =? ILPS28QSW_ONE_SHOT); reflexivity.
Qed.

End NullContext.

Section GetterTraffic.

Context {H : Type} {hdr : ilps28qsw_reg_h} {hdm : ilps28qsw_reg_h_more}.
Variable junk : nat -> Z.
Variable c : stmdev_ctx_t H.



End GetterTraffic.

Section SampleConversions.

Context {hdr : ilps28qsw_reg_h} {fl : float_ops} {bld : c_build}.
Variable junk : nat -> Z.

(** X23.  A sample read directly and an element of a FIFO batch are
    converted alike.  On a device whose FIFO output registers hold the three
    bytes of its pressure output registers, the element that
    [ilps28qsw_fifo_data_get] stores at index 0 for a batch of one has the
    raw code and the pressure that [ilps28qsw_data_get] reports under the
    same mode descriptor, and the same QVAR code when the raw code is not
    negative; the rest of the array is untouched. *)
Theorem data_get_converts_like_fifo (r : Z -> Z) (md : ilps28qsw_md_t)
    (e0 : ilps28qsw_fifo_data_t) (rest : list ilps28qsw_fifo_data_t) :
  device_bytes r ILPS28QSW_FIFO_DATA_OUT_PRESS_XL 3 =
  device_bytes r ILPS28QSW_PRESS_OUT_XL 3 ->
  let d :=
    snd (result (ilps28qsw_data_get junk (Some double_ctx) md (device r))) in
  let batch :=
    snd (result (ilps28qsw_fifo_data_get junk (Some double_ctx) 1 md
                   (e0 :: rest) (device r))) in
  exists s,
    batch = s :: rest /\
    fifo_raw s = pressure_raw d /\
    fifo_hpa s = pressure_hpa d /\
    (0 <= pressure_raw d -> fifo_lsb s = ah_qvar_lsb d).
Proof.
  intros Hsame d batch. subst d batch.
  unfold ilps28qsw_data_get, ilps28qsw_fifo_data_get.
  change (Z.to_nat (uint8_t 1)) with 1%nat. cbn [fifo_data_get_loop].
  device_run. rewrite Hsame. rewrite !device_bytes_cons.
  cbn [nth array_set fst snd pressure_raw pressure_hpa ah_qvar_lsb].
  eexists. split; [reflexivity|].
  cbn [fifo_raw fifo_hpa fifo_lsb].
  split; [reflexivity|]. split; [reflexivity|]. intros _. reflexivity.
Qed.

End SampleConversions.

Section TriggerThenStatus.

Context {hdr : ilps28qsw_reg_h} {hdm : ilps28qsw_reg_h_more}.
Variable junk : nat -> Z.

(** X24.  After [ilps28qsw_trigger_sw] in one-shot mode, and until the
    device clears the one-shot bit, [ilps28qsw_status_get] reports the
    measurement as not finished: bit 0 of [end_meas] is 0. *)
Theorem trigger_sw_then_status_reports_busy (r : Z -> Z)
    (md : ilps28qsw_md_t) :
  odr md = ILPS28QSW_ONE_SHOT ->
  bf_wf ctrl_reg2_oneshot = true ->
  PROPERTY_ENABLE = 1 ->
  0 < stat_flag_bits ->
  let s := ilps28qsw_trigger_sw junk (Some double_ctx) md (device r) in
  result s = 0 /\
  Z.testbit
    (end_meas (snd (result (ilps28qsw_status_get junk (Some double_ctx)
                              (bus_after s))))) 0 = false.
Proof.
  intros Hodr Hwf Hen Hbits s. subst s.
  unfold ilps28qsw_trigger_sw, ilps28qsw_status_get.
  rewrite Hodr, Z.eqb_refl. device_run. split; [reflexivity|].
  cbn [end_meas]. rewrite stat_flag_lnot_bit0 by assumption.
  rewrite device_bytes_store by reflexivity. cbn [map nth].
  bf_simpl_hyp. rewrite Hen, land_1_ones by (apply bf_wf_bounds in Hwf; lia).
  reflexivity.
Qed.

End TriggerThenStatus.

(** * Concrete runs of the further properties *)

Section FurtherConcreteRuns.

#[local] Existing Instance device_header.
#[local] Existing Instance device_header_more.
#[local] Existing Instance exact_float.
#[local] Existing Instance wrapping_build.


(** Clearing the latch of an interrupt configuration of 0x24 keeps the
    auto-zero bit. *)
Lemma flag_setters_change_one_member_witness :
  exists b' s,
    calls (ilps28qsw_interrupt_mode_set no_junk (Some double_ctx) 0
             (device interrupt_device)) =
      [BusRead 11 1 [36] 0; BusWrite 11 1 [b'] s] /\
    bf_get interrupt_cfg_lir b' = 0 /\ Z.testbit b' 5 = true.
Proof.
  exists 32, 0.
  assert (Hcalls :
    calls (ilps28qsw_interrupt_mode_set no_junk (Some double_ctx) 0
             (device interrupt_device)) =
      [BusRead 11 1 [36] 0; BusWrite 11 1 [32] 0])
    by (vm_compute; reflexivity).
  split; [exact Hcalls|].
  pose proof (flag_setters_change_one_member no_junk double_ctx 0
                (device interrupt_device)) as Hall.
  destruct (Hall eq_refl eq_refl eq_refl) as [_ [_ Hlir]].
  destruct (Hlir 36 32 0 0 Hcalls) as [Hget Hsame].
  split; [rewrite Hget; reflexivity|].
  rewrite (Hsame 5); [reflexivity | lia | reflexivity].
Defined.

Lemma trigger_sw_only_in_one_shot_witness :
  ilps28qsw_trigger_sw no_junk (Some double_ctx) interleaved_50Hz
    (device running_device) = (0, device running_device, []).
Proof.
  apply trigger_sw_only_in_one_shot. vm_compute. discriminate.
Defined.


Lemma init_set_unknown_request_resets_witness :
  ilps28qsw_init_set no_junk (Some double_ctx) 7 (device configured_device) =
  ilps28qsw_init_set no_junk (Some double_ctx) ILPS28QSW_RESET
    (device configured_device).
Proof.
  apply (init_set_unknown_request_resets no_junk double_ctx 7
           (device configured_device));
    vm_compute; discriminate.
Defined.



Lemma data_get_temperature_and_traffic_witness :
  heat_raw (snd (result (ilps28qsw_data_get no_junk (Some double_ctx)
                           one_shot_mode (device cold_sample)))) = -1000.
Proof.
  destruct (data_get_temperature_and_traffic no_junk double_ctx one_shot_mode
              interleaved_50Hz (device cold_sample))
    as [b0 [b1 [b2 [b3 [b4 [st [Hcalls [_ [Hraw _]]]]]]]]].
  rewrite Hraw. vm_compute in Hcalls. injection Hcalls as _ _ _ <- <- _.
  reflexivity.
Defined.


(** Outside interleaved mode a code with bit 0 set is a pressure. *)
Lemma data_get_plain_pressure_witness :
  ah_qvar_lsb (snd (result (ilps28qsw_data_get no_junk (Some double_ctx)
                              one_shot_mode (device qvar_sample)))) = 0.
Proof.
  pose proof (data_get_plain_pressure no_junk double_ctx one_shot_mode
                (device qvar_sample)) as Hplain.
  cbv zeta in Hplain. destruct Hplain as [Hplain _].
  apply Hplain. vm_compute. discriminate.
Defined.




(** The QVAR enable (bit 7 of control register 3), cleared on the way, is
    set in the combined write. *)
Lemma mode_set_keeps_unrelated_bits_witness :
  exists f1 f2 f3 s,
    last (calls (ilps28qsw_mode_set no_junk (Some double_ctx) interleaved_50Hz
                   (device running_device))) (BusRead 0 0 [] 0) =
      BusWrite 16 3 [f1; f2; f3] s /\
    Z.testbit f3 7 = true.
Proof.
  pose proof (mode_set_keeps_unrelated_bits no_junk double_ctx
                interleaved_50Hz (device running_device)) as Hall.
  destruct (Hall eq_refl eq_refl eq_refl eq_refl eq_refl eq_refl eq_refl
              eq_refl 24 0 129)
    as [f1 [f2 [f3 [s [fifo [fifo' [s4 [s5 [Hlast [_ [_ [_ [_ [H3 _]]]]]]]]]]]]]];
    [vm_compute; reflexivity|].
  exists f1, f2, f3, s. split; [exact Hlast|].
  rewrite (H3 7); [reflexivity | lia | reflexivity].
Defined.

Lemma opc_round_trip_witness :
  result (ilps28qsw_opc_get no_junk (Some double_ctx)
            (bus_after (ilps28qsw_opc_set (Some double_ctx) (-2)
                          (device running_device)))) = (0, -2).
Proof.
  pose proof (opc_round_trip no_junk running_device (-2)) as Hrt.
  cbv zeta in Hrt. apply Hrt. lia.
Defined.

(** Only bit 0 of the value 3 survives in the QVAR enable. *)
Lemma flag_setters_read_back_witness :
  result (ilps28qsw_ah_qvar_en_get no_junk (Some double_ctx)
            (bus_after (ilps28qsw_ah_qvar_en_set no_junk (Some double_ctx) 3
                          (device configured_device)))) = (0, 1).
Proof.
  pose proof (flag_setters_read_back no_junk configured_device 3) as Hall.
  destruct (Hall eq_refl eq_refl eq_refl) as [_ [Hqv _]].
  rewrite Hqv. reflexivity.
Defined.

Lemma bus_mode_round_trip_witness :
  result (ilps28qsw_bus_mode_get no_junk (Some double_ctx) auto_50us
            (bus_after (ilps28qsw_bus_mode_set no_junk (Some double_ctx)
                          always_on_1ms (device running_device)))) =
    (0, always_on_1ms).
Proof.
  pose proof (bus_mode_round_trip no_junk running_device always_on_1ms
                auto_50us) as Hrt.
  cbv zeta in Hrt. apply Hrt;
    first [reflexivity | cbn; lia | vm_compute; discriminate].
Defined.

Lemma interrupt_cfg_settings_independent_witness :
  result (ilps28qsw_interrupt_mode_get no_junk (Some double_ctx)
            (bus_after (ilps28qsw_int_on_threshold_mode_set no_junk
                          (Some double_ctx) threshold_top_bit
                          (device interrupt_device)))) =
  result (ilps28qsw_interrupt_mode_get no_junk (Some double_ctx)
            (device interrupt_device)).
Proof.
  pose proof (interrupt_cfg_settings_independent no_junk interrupt_device
                threshold_top_bit reference_once 0) as Hind.
  cbv zeta in Hind. destruct (Hind eq_refl) as [[_ Hlatch] _]. exact Hlatch.
Defined.

Lemma mode_and_fifo_settings_independent_witness :
  result (ilps28qsw_fifo_mode_get no_junk (Some double_ctx)
            (bus_after (ilps28qsw_mode_set no_junk (Some double_ctx)
                          interleaved_50Hz (device fifo_interleaved_device))))
  = result (ilps28qsw_fifo_mode_get no_junk (Some double_ctx)
              (device fifo_interleaved_device)).
Proof.
  pose proof (mode_and_fifo_settings_independent no_junk
                fifo_interleaved_device interleaved_50Hz one_shot_mode
                stream_with_watermark) as Hall.
  destruct (Hall eq_refl) as [Hfifo _];
    [vm_compute; discriminate | vm_compute; discriminate|].
  exact Hfifo.
Defined.


(** The FIFO and the output registers both hold the code 0x030201. *)
Lemma data_get_converts_like_fifo_witness :
  exists s,
    snd (result (ilps28qsw_fifo_data_get no_junk (Some double_ctx) 1
                   interleaved_50Hz [blank_element]
                   (device mirrored_sample))) = [s] /\
    fifo_lsb s = 197121 /\
    ah_qvar_lsb (snd (result (ilps28qsw_data_get no_junk (Some double_ctx)
                                interleaved_50Hz (device mirrored_sample))))
      = 197121.
Proof.
  pose proof (data_get_converts_like_fifo no_junk mirrored_sample
                interleaved_50Hz blank_element []) as Hlike.
  cbv zeta in Hlike.
  destruct Hlike as [s [Hbatch [_ [_ Hlsb]]]]; [reflexivity|].
  exists s. split; [exact Hbatch|].
  rewrite Hlsb; [split; reflexivity|vm_compute; discriminate].
Defined.

Lemma trigger_sw_then_status_reports_busy_witness :
  Z.testbit
    (end_meas (snd (result
       (ilps28qsw_status_get no_junk (Some double_ctx)
          (bus_after (ilps28qsw_trigger_sw no_junk (Some double_ctx)
                        one_shot_mode (device configured_device))))))) 0
  = false.
Proof.
  pose proof (trigger_sw_then_status_reports_busy no_junk configured_device
                one_shot_mode) as Hbusy.
  cbv zeta in Hbusy. exact (proj2 (Hbusy eq_refl eq_refl eq_refl eq_refl)).
Defined.

End FurtherConcreteRuns.
